(** * RNAdapter: the React Native platform adapter of the Keycloak client

    A shallow embedding of [src/keycloak/adapter.ts].  The adapter is glue
    between three collaborators: the protocol client ([KeycloakInstance]),
    the in-app browser ([InAppBrowser]) and the platform ([Linking],
    [fetch]).  A collaborator is modelled by what each of its operations
    answers; every call the adapter makes is appended to a call log, so
    that the order and the arguments of the calls can be stated. *)

From Stdlib Require Import String Ascii List Bool Arith Lia.
Import ListNotations.
Open Scope list_scope.
Open Scope string_scope.

(** ** JavaScript values the adapter handles *)

Module Js.

(** What a [throw] or a rejected promise carries.  The source tells the two
    apart with [error instanceof Error]; only an [Error] has a [message]. *)
Inductive thrown : Type :=
| ErrorObj (message : string)
| NonError (value : string).

(** A promise once settled; also the outcome of a call that may throw. *)
Inductive settled (A : Type) : Type :=
| Resolved (value : A)
| Rejected (reason : thrown).
Arguments Resolved {A} value.
Arguments Rejected {A} reason.

(** Truthiness of a [string | undefined]: [undefined] and [''] are falsy. *)
Definition truthy (v : option string) : bool :=
  match v with
  | Some s => negb (s =? "")
  | None => false
  end.

(** [if (v) { k v } else { otherwise }]: inside the branch [v] is a
    non-empty string. *)
Definition if_truthy {A : Type} (v : option string) (k : string -> A)
  (otherwise : A) : A :=
  match v with
  | Some s => if s =? "" then otherwise else k s
  | None => otherwise
  end.

(** [a || b] on [string | undefined]. *)
Definition logical_or (a b : option string) : option string :=
  if truthy a then a else b.

(** The string without its first [n] characters. *)
Fixpoint skip (n : nat) (s : string) : string :=
  match n, s with
  | O, _ => s
  | S _, EmptyString => EmptyString
  | S n', String _ rest => skip n' rest
  end.

(** [s.replace(pattern, replacement)] with a string pattern and a
    replacement free of [$]: the leftmost match is replaced, nothing else. *)
Fixpoint replace (pattern replacement s : string) {struct s} : string :=
  if prefix pattern s then replacement ++ skip (String.length pattern) s
  else match s with
       | EmptyString => EmptyString
       | String c rest => String c (replace pattern replacement rest)
       end.

End Js.
Import Js.

(** ** Values passed through untouched *)

(** Option records, callback parameters, browser configuration and token
    payloads are forwarded verbatim; the adapter never looks inside. *)
Class Payloads : Type := {
  KeycloakLoginOptions : Type;
  KeycloakRegisterOptions : Type;
  CallbackParams : Type;
  InAppBrowserOptions : Type;
  FetchTokenResponse : Type;
}.

(** [KeycloakLogoutOptions], also the shape [{ redirectUri?: string }] that
    [RNAdapter.redirectUri] takes. *)
Module KeycloakLogoutOptions.
Record t : Type := { redirectUri : option string }.

(** [options?.redirectUri] on an optional argument. *)
Definition redirectUri_of (options : option t) : option string :=
  match options with
  | Some o => redirectUri o
  | None => None
  end.
End KeycloakLogoutOptions.

(** The outcome of [InAppBrowser.openAuth]: [{ type, url? }]. *)
Module BrowserResult.
Record t : Type := { type : string; url : option string }.
End BrowserResult.

(** The second argument of [fetch]. *)
Module RequestInit.
Record t : Type := {
  method : string;
  headers : list (string * string);
  body : string;
}.
End RequestInit.

(** ** Collaborators *)

Module Response.
Section Def.
Context `{Payloads}.
Record t : Type := {
  ok : bool;
  json : settled FetchTokenResponse;
}.
End Def.
End Response.

Module KeycloakInstance.
Section Def.
Context `{Payloads}.
Record t : Type := {
  idToken : option string;
  redirectUri : option string;
  createLoginUrl : option KeycloakLoginOptions -> settled string;
  createLogoutUrl : option KeycloakLogoutOptions.t -> settled (option string);
  createRegisterUrl : option KeycloakRegisterOptions -> settled string;
  createAccountUrl : settled (option string);
  parseCallback : string -> settled CallbackParams;
  processCallback : CallbackParams -> settled unit;
  clearToken : settled unit;
}.
End Def.
End KeycloakInstance.

Module InAppBrowser.
Section Def.
Context `{Payloads}.
Record t : Type := {
  isAvailable : settled bool;
  openAuth : string -> option string -> option InAppBrowserOptions ->
             settled BrowserResult.t;
  open : string -> option InAppBrowserOptions -> settled unit;
}.
End Def.
End InAppBrowser.

Module Linking.
Record t : Type := { openURL : string -> settled unit }.
End Linking.

Module RNKeycloakInitOptions.
Section Def.
Context `{Payloads}.
Record t : Type := { inAppBrowserOptions : option InAppBrowserOptions }.
End Def.
End RNKeycloakInitOptions.

(** ** The call log and the monad of asynchronous code *)

Section Effects.
Context `{Payloads}.

(** One entry per call made to a collaborator, with its arguments. *)
Inductive event : Type :=
| CreateLoginUrl (options : option KeycloakLoginOptions)
| CreateLogoutUrl (options : option KeycloakLogoutOptions.t)
| CreateRegisterUrl (options : option KeycloakRegisterOptions)
| CreateAccountUrl
| ParseCallback (url : string)
| ProcessCallback (oauth : CallbackParams)
| ClearToken
| IsAvailable
| OpenAuth (url : string) (redirectUrl : option string)
           (options : option InAppBrowserOptions)
| Open (url : string) (options : option InAppBrowserOptions)
| OpenURL (url : string)
| Fetch (url : string) (init : RequestInit.t)
| ResponseJson.

(** An [async] body: from the log so far to how it settles and the log
    after.  The flows are sequential, so [await] is plain sequencing. *)
Definition Async (A : Type) : Type := list event -> settled A * list event.

Definition ret {A : Type} (a : A) : Async A :=
  fun log => (Resolved a, log).

Definition throw {A : Type} (e : thrown) : Async A :=
  fun log => (Rejected e, log).

Definition bind {A B : Type} (m : Async A) (k : A -> Async B) : Async B :=
  fun log =>
    match m log with
    | (Resolved a, log') => k a log'
    | (Rejected e, log') => (Rejected e, log')
    end.

(** A call to a collaborator that answers [answer]: logged, then settled. *)
Definition call {A : Type} (ev : event) (answer : settled A) : Async A :=
  fun log => (answer, (log ++ [ev])%list).

(** [try { body } catch (error) { handler }]. *)
Definition try_catch {A : Type} (body : Async A) (handler : thrown -> Async A)
  : Async A :=
  fun log =>
    match body log with
    | (Resolved a, log') => (Resolved a, log')
    | (Rejected e, log') => handler e log'
    end.

(** Running a method from an empty log. *)
Definition run {A : Type} (m : Async A) : settled A * list event := m [].

Definition outcome {A : Type} (m : Async A) : settled A := fst (run m).

Definition calls {A : Type} (m : Async A) : list event := snd (run m).

End Effects.

Notation "x <- m ;; k" := (bind m (fun x => k))
  (at level 61, m at next level, right associativity).
Notation "m ;;; k" := (bind m (fun _ => k))
  (at level 61, right associativity).

(** ** The adapter *)

Module RNAdapter.
Section Methods.
Context `{Payloads}.

(** Ambient modules of the source file. *)
Variable InAppBrowser : InAppBrowser.t.
Variable Linking : Linking.t.
Variable fetch : string -> RequestInit.t -> settled Response.t.
(** The message of the [TypeError] the engine raises when a property of an
    absent client is read. *)
Variable typeError : string.

(** [this.client] and [this.initOptions]. *)
Variable client : option KeycloakInstance.t.
Variable initOptions : RNKeycloakInitOptions.t.

(** [this.client.<member>] outside a guard. *)
Definition the_client : Async KeycloakInstance.t :=
  match client with
  | Some c => ret c
  | None => throw (ErrorObj typeError)
  end.

Definition login (options : option KeycloakLoginOptions) : Async unit :=
  c <- the_client ;;
  loginUrl <- call (CreateLoginUrl options)
                   (KeycloakInstance.createLoginUrl c options) ;;
  available <- call IsAvailable (InAppBrowser.isAvailable InAppBrowser) ;;
  if (available : bool) then
    let redirect := KeycloakInstance.redirectUri c in
    let opts := RNKeycloakInitOptions.inAppBrowserOptions initOptions in
    res <- call (OpenAuth loginUrl redirect opts)
                (InAppBrowser.openAuth InAppBrowser loginUrl redirect opts) ;;
    let otherwise :=
      if BrowserResult.type res =? "cancel" then
        throw (ErrorObj "User has closed the browser")
      else
        throw (ErrorObj "Authentication flow failed") in
    if BrowserResult.type res =? "success" then
      if_truthy (BrowserResult.url res)
        (fun url =>
           oauth <- call (ParseCallback url)
                         (KeycloakInstance.parseCallback c url) ;;
           call (ProcessCallback oauth)
                (KeycloakInstance.processCallback c oauth))
        otherwise
    else otherwise
  else
    throw (ErrorObj "InAppBrowser not available").

(** The [try] block of [logout]. *)
Definition logout_try (options : option KeycloakLogoutOptions.t)
  : Async unit :=
  let missing :=
    throw (ErrorObj "Keycloak instance or ID token is missing.") in
  match client with
  | None => missing
  | Some c =>
      if_truthy (KeycloakInstance.idToken c)
        (fun idToken =>
           created <- call (CreateLogoutUrl options)
                           (KeycloakInstance.createLogoutUrl c options) ;;
           if_truthy created
             (fun built =>
                let logoutUrl :=
                  replace "redirect_uri" "post_logout_redirect_uri" built
                  ++ "&id_token_hint=" ++ idToken in
                available <- call IsAvailable
                               (InAppBrowser.isAvailable InAppBrowser) ;;
                if (available : bool) then
                  let redirect :=
                    logical_or (KeycloakLogoutOptions.redirectUri_of options)
                       (KeycloakInstance.redirectUri c) in
                  result <- call (OpenAuth logoutUrl redirect None)
                              (InAppBrowser.openAuth InAppBrowser
                                 logoutUrl redirect None) ;;
                  if BrowserResult.type result =? "success" then
                    call ClearToken (KeycloakInstance.clearToken c)
                  else if (BrowserResult.type result =? "cancel")
                          || (BrowserResult.type result =? "dismiss") then
                    throw (ErrorObj "User has closed the browser")
                  else
                    throw (ErrorObj "Logout process failed in InAppBrowser.")
                else
                  call (OpenURL logoutUrl)
                       (Linking.openURL Linking logoutUrl) ;;;
                  call ClearToken (KeycloakInstance.clearToken c))
             (throw (ErrorObj "Unable to create logout URL.")))
        missing
  end.

(** The [catch] block of [logout]. *)
Definition logout_catch (error : thrown) : Async unit :=
  match error with
  | ErrorObj message =>
      throw (ErrorObj ("Logout process failed: " ++ message))
  | NonError _ =>
      throw (ErrorObj "An unknown error occurred during logout.")
  end.

Definition logout (options : option KeycloakLogoutOptions.t) : Async unit :=
  try_catch (logout_try options) logout_catch.

Definition register (options : option KeycloakRegisterOptions) : Async unit :=
  c <- the_client ;;
  registerUrl <- call (CreateRegisterUrl options)
                      (KeycloakInstance.createRegisterUrl c options) ;;
  available <- call IsAvailable (InAppBrowser.isAvailable InAppBrowser) ;;
  if (available : bool) then
    let redirect := KeycloakInstance.redirectUri c in
    let opts := RNKeycloakInitOptions.inAppBrowserOptions initOptions in
    res <- call (OpenAuth registerUrl redirect opts)
                (InAppBrowser.openAuth InAppBrowser registerUrl redirect opts) ;;
    let otherwise := throw (ErrorObj "Registration flow failed") in
    if BrowserResult.type res =? "success" then
      if_truthy (BrowserResult.url res)
        (fun url =>
           oauth <- call (ParseCallback url)
                         (KeycloakInstance.parseCallback c url) ;;
           call (ProcessCallback oauth)
                (KeycloakInstance.processCallback c oauth))
        otherwise
    else otherwise
  else
    throw (ErrorObj "InAppBrowser not available").

Definition accountManagement : Async unit :=
  c <- the_client ;;
  accountUrl <- call CreateAccountUrl (KeycloakInstance.createAccountUrl c) ;;
  match accountUrl with
  | Some url =>
      let opts := RNKeycloakInitOptions.inAppBrowserOptions initOptions in
      call (Open url opts) (InAppBrowser.open InAppBrowser url opts)
  | None => throw (NonError "Not supported by the OIDC server")
  end.

(** The request both token helpers send. *)
Definition tokenRequest (params : string) : RequestInit.t :=
  {| RequestInit.method := "POST";
     RequestInit.headers :=
       [("Content-type", "application/x-www-form-urlencoded")];
     RequestInit.body := params |}.

Definition fetchTokens (tokenUrl params : string) : Async FetchTokenResponse :=
  tokenRes <- call (Fetch tokenUrl (tokenRequest params))
                   (fetch tokenUrl (tokenRequest params)) ;;
  if negb (Response.ok tokenRes) then throw (ErrorObj "fetchTokens failed")
  else call ResponseJson (Response.json tokenRes).

Definition refreshTokens (tokenUrl params : string)
  : Async FetchTokenResponse :=
  tokenRes <- call (Fetch tokenUrl (tokenRequest params))
                   (fetch tokenUrl (tokenRequest params)) ;;
  if negb (Response.ok tokenRes) then throw (ErrorObj "refreshTokens failed")
  else call ResponseJson (Response.json tokenRes).

(** [redirectUri] is synchronous and calls nobody; a read of
    [this.client.redirectUri] on an absent client throws. *)
Definition redirectUri (options : option KeycloakLogoutOptions.t)
  : settled string :=
  let fromClient :=
    match client with
    | None => Rejected (ErrorObj typeError)
    | Some c =>
        if_truthy (KeycloakInstance.redirectUri c)
          (fun uri => Resolved uri)
          (Resolved "")
    end in
  if_truthy (KeycloakLogoutOptions.redirectUri_of options)
    (fun uri => Resolved uri)
    fromClient.

End Methods.
End RNAdapter.

(** ** Reading the call log *)

Section Log.
Context `{Payloads}.

(** The URL an entry hands to a browser or to the URL opener, if any. *)
Definition opened_url (ev : event) : option string :=
  match ev with
  | OpenAuth url _ _ => Some url
  | Open url _ => Some url
  | OpenURL url => Some url
  | _ => None
  end.

Fixpoint opened_urls (log : list event) : list string :=
  match log with
  | [] => []
  | ev :: rest =>
      match opened_url ev with
      | Some url => url :: opened_urls rest
      | None => opened_urls rest
      end
  end.

(** Whether [clearToken] was called. *)
Fixpoint cleared (log : list event) : bool :=
  match log with
  | [] => false
  | ClearToken :: _ => true
  | _ :: rest => cleared rest
  end.

End Log.

(** ** Sample collaborators *)

Module Demo.

Definition payloads : Payloads :=
  {| KeycloakLoginOptions := string;
     KeycloakRegisterOptions := string;
     CallbackParams := string;
     InAppBrowserOptions := string;
     FetchTokenResponse := string |}.
#[local] Existing Instance payloads.

(** A client that holds [token] and builds [logoutUrl] on logout. *)
Definition client (token : option string) (logoutUrl : option string)
  (accountUrl : option string) (configured : option string)
  : @KeycloakInstance.t payloads :=
  {| KeycloakInstance.idToken := token;
     KeycloakInstance.redirectUri := configured;
     KeycloakInstance.createLoginUrl := fun _ =>
       Resolved "https://kc/auth?client_id=app&redirect_uri=app%3A%2F%2Fcb";
     KeycloakInstance.createLogoutUrl := fun _ => Resolved logoutUrl;
     KeycloakInstance.createRegisterUrl := fun _ =>
       Resolved "https://kc/registrations?redirect_uri=app%3A%2F%2Fcb";
     KeycloakInstance.createAccountUrl := Resolved accountUrl;
     KeycloakInstance.parseCallback := fun url => Resolved ("parsed:" ++ url);
     KeycloakInstance.processCallback := fun _ => Resolved tt;
     KeycloakInstance.clearToken := Resolved tt |}.

Definition browser (available : bool) (answer : settled BrowserResult.t)
  : @InAppBrowser.t payloads :=
  {| InAppBrowser.isAvailable := Resolved available;
     InAppBrowser.openAuth := fun _ _ _ => answer;
     InAppBrowser.open := fun _ _ => Resolved tt |}.

Definition linking (answer : settled unit) : Linking.t :=
  {| Linking.openURL := fun _ => answer |}.

Definition initOptions : @RNKeycloakInitOptions.t payloads :=
  {| RNKeycloakInitOptions.inAppBrowserOptions := Some "modal" |}.

Definition fetch (answer : settled (@Response.t payloads))
  : string -> RequestInit.t -> settled (@Response.t payloads) :=
  fun _ _ => answer.

Definition logoutUrl : string :=
  "https://kc/logout?redirect_uri=app%3A%2F%2Fcb".

(** A signed-in client whose redirect URI is [app://cb]. *)
Definition signedIn : @KeycloakInstance.t payloads :=
  client (Some "tok") (Some logoutUrl) None (Some "app://cb").

(** The same client with an empty identity token. *)
Definition signedOut : @KeycloakInstance.t payloads :=
  client (Some "") (Some logoutUrl) None (Some "app://cb").

(** A client whose logout URL names [redirect_uri] twice, first inside
    another parameter's name. *)
Definition twice : @KeycloakInstance.t payloads :=
  client (Some "tok")
    (Some "https://kc/logout?client_redirect_uri=a&redirect_uri=b")
    None (Some "app://cb").

Definition answered (type : string) (url : option string)
  : settled BrowserResult.t :=
  Resolved {| BrowserResult.type := type; BrowserResult.url := url |}.

(** No in-app browser on the device. *)
Definition noBrowser : @InAppBrowser.t payloads :=
  browser false (Rejected (ErrorObj "InAppBrowser is not available")).

End Demo.

(** ** Strings *)

Section StringFacts.

Lemma if_truthy_nonempty {A : Type} (s : string) (k : string -> A) (o : A) :
  s <> "" -> if_truthy (Some s) k o = k s.
Proof.
  intros Hs. unfold if_truthy.
  destruct (String.eqb_spec s ""); [contradiction | reflexivity].
Qed.

Lemma if_truthy_falsy {A : Type} (v : option string) (k : string -> A) (o : A) :
  truthy v = false -> if_truthy v k o = o.
Proof.
  destruct v as [s|]; simpl; [|reflexivity].
  destruct (s =? ""); [reflexivity | discriminate].
Qed.

Lemma truthy_nonempty (s : string) : s <> "" -> truthy (Some s) = true.
Proof.
  intros Hs. simpl. destruct (String.eqb_spec s ""); [contradiction | reflexivity].
Qed.

Lemma append_assoc (a b c : string) : (a ++ b) ++ c = a ++ b ++ c.
Proof. induction a as [|x a IH]; simpl; [reflexivity | now rewrite IH]. Qed.

Lemma skip_append (a b : string) : skip (String.length a) (a ++ b) = b.
Proof. induction a as [|c a IH]; simpl; [destruct b|]; auto. Qed.

Lemma prefix_append (a b : string) : prefix a (a ++ b) = true.
Proof.
  induction a as [|c a IH]; simpl.
  - destruct b; reflexivity.
  - destruct (ascii_dec c c); [exact IH | contradiction].
Qed.

Lemma replace_here (pattern replacement s : string) :
  prefix pattern s = true ->
  replace pattern replacement s
  = replacement ++ skip (String.length pattern) s.
Proof. intros Hp. destruct s; cbn [replace]; rewrite Hp; reflexivity. Qed.

Lemma replace_later (pattern replacement : string) (c : ascii) (s : string) :
  prefix pattern (String c s) = false ->
  replace pattern replacement (String c s)
  = String c (replace pattern replacement s).
Proof. intros Hp. cbn [replace]. rewrite Hp. reflexivity. Qed.

(** [replace] rewrites the leftmost match and copies the rest verbatim. *)
Lemma replace_leftmost (pattern replacement pre post : string) :
  (forall k, k < String.length pre ->
             prefix pattern (skip k (pre ++ pattern ++ post)) = false) ->
  replace pattern replacement (pre ++ pattern ++ post)
  = pre ++ replacement ++ post.
Proof.
  induction pre as [|c pre IH]; intros Hfirst.
  - change ("" ++ pattern ++ post) with (pattern ++ post).
    rewrite replace_here by apply prefix_append.
    rewrite skip_append. reflexivity.
  - change (String c pre ++ pattern ++ post)
      with (String c (pre ++ pattern ++ post)) in *.
    rewrite replace_later by exact (Hfirst 0 (Nat.lt_0_succ _)).
    simpl. f_equal. apply IH.
    intros k Hk. apply (Hfirst (S k)). simpl. lia.
Qed.

Lemma prefix_split (pattern s : string) :
  prefix pattern s = true ->
  s = pattern ++ skip (String.length pattern) s.
Proof.
  revert s. induction pattern as [|a pattern IH]; intros s Hp.
  - reflexivity.
  - destruct s as [|b s]; [discriminate|]. simpl in Hp.
    destruct (ascii_dec a b) as [->|]; [|discriminate].
    simpl. f_equal. apply IH, Hp.
Qed.

(** A string in which the pattern matches somewhere splits at its leftmost
    match. *)
Lemma leftmost_match_exists (pattern s : string) :
  (exists k, prefix pattern (skip k s) = true) ->
  exists pre post,
    s = pre ++ pattern ++ post
    /\ forall k, k < String.length pre ->
                 prefix pattern (skip k s) = false.
Proof.
  induction s as [|c s IH]; intros [k Hk].
  - exists "", "". split.
    + assert (Hs : skip k "" = "") by (destruct k; reflexivity).
      rewrite Hs in Hk. destruct pattern; [reflexivity | discriminate].
    + simpl. intros j Hj. lia.
  - destruct (prefix pattern (String c s)) eqn:Hhere.
    + exists "", (skip (String.length pattern) (String c s)). split.
      * apply prefix_split, Hhere.
      * simpl. intros j Hj. lia.
    + destruct k as [|k]; [cbn [skip] in Hk; congruence|].
      cbn [skip] in Hk.
      destruct (IH (ex_intro _ k Hk)) as [pre [post [Hs Hfirst]]].
      exists (String c pre), post. split.
      * simpl. f_equal. exact Hs.
      * intros [|j] Hj; [exact Hhere|].
        simpl. apply Hfirst. simpl in Hj. lia.
Qed.

(** Without a match the string is returned as it is. *)
Lemma replace_no_match (pattern replacement s : string) :
  (forall k, k <= String.length s -> prefix pattern (skip k s) = false) ->
  replace pattern replacement s = s.
Proof.
  induction s as [|c s IH]; intros Hno.
  - pose proof (Hno 0 (Nat.le_0_l _)) as H0. cbn [skip] in H0.
    cbn [replace]. rewrite H0. reflexivity.
  - rewrite replace_later by exact (Hno 0 (Nat.le_0_l _)).
    f_equal. apply IH.
    intros k Hk. apply (Hno (S k)). simpl. lia.
Qed.

End StringFacts.

(** ** Logout *)

Ltac unfold_async :=
  unfold run, outcome, calls, try_catch, bind, call, throw, ret in *.

Section LogoutFacts.
Context `{Payloads}.
Variable browser : InAppBrowser.t.
Variable linking : Linking.t.

(** With a token and a URL in hand, [logout] reaches the availability
    query having called the URL builder only. *)
Lemma logout_try_with_url (c : KeycloakInstance.t)
  (options : option KeycloakLogoutOptions.t) (idToken built logoutUrl : string) :
  KeycloakInstance.idToken c = Some idToken -> idToken <> "" ->
  KeycloakInstance.createLogoutUrl c options = Resolved (Some built) ->
  built <> "" ->
  logoutUrl = replace "redirect_uri" "post_logout_redirect_uri" built
              ++ "&id_token_hint=" ++ idToken ->
  run (RNAdapter.logout_try browser linking (Some c) options)
  = match InAppBrowser.isAvailable browser with
    | Rejected e => (Rejected e, [CreateLogoutUrl options; IsAvailable])
    | Resolved false =>
        match Linking.openURL linking logoutUrl with
        | Rejected e =>
            (Rejected e,
             [CreateLogoutUrl options; IsAvailable;
              OpenURL logoutUrl])
        | Resolved _ =>
            (KeycloakInstance.clearToken c,
             [CreateLogoutUrl options; IsAvailable;
              OpenURL logoutUrl; ClearToken])
        end
    | Resolved true =>
        let redirect :=
          logical_or (KeycloakLogoutOptions.redirectUri_of options)
             (KeycloakInstance.redirectUri c) in
        let log :=
          [CreateLogoutUrl options; IsAvailable;
           OpenAuth logoutUrl redirect None] in
        match InAppBrowser.openAuth browser logoutUrl
                redirect None with
        | Rejected e => (Rejected e, log)
        | Resolved res =>
            if BrowserResult.type res =? "success" then
              (KeycloakInstance.clearToken c, (log ++ [ClearToken])%list)
            else if (BrowserResult.type res =? "cancel")
                    || (BrowserResult.type res =? "dismiss") then
              (Rejected (ErrorObj "User has closed the browser"), log)
            else
              (Rejected (ErrorObj "Logout process failed in InAppBrowser."),
               log)
        end
    end.
Proof.
  intros Htok Hne Hurl Hbuilt ->.
  unfold RNAdapter.logout_try. rewrite Htok, (if_truthy_nonempty _ _ _ Hne).
  unfold_async. rewrite Hurl, (if_truthy_nonempty _ _ _ Hbuilt). cbn [app].
  destruct (InAppBrowser.isAvailable browser) as [[|]|e]; [| |reflexivity].
  - cbv zeta. cbn [app].
    destruct (InAppBrowser.openAuth browser _ _ None) as [res|e];
      [|reflexivity].
    destruct (BrowserResult.type res =? "success"); [reflexivity|].
    destruct ((BrowserResult.type res =? "cancel")
              || (BrowserResult.type res =? "dismiss")); reflexivity.
  - cbn [app]. destruct (Linking.openURL linking _); reflexivity.
Qed.

(** The URLs [logout] hands over, read off the call log. *)
Lemma logout_opened_urls (c : KeycloakInstance.t)
  (options : option KeycloakLogoutOptions.t) (idToken built : string) :
  KeycloakInstance.idToken c = Some idToken -> idToken <> "" ->
  KeycloakInstance.createLogoutUrl c options = Resolved (Some built) ->
  built <> "" ->
  opened_urls (calls (RNAdapter.logout browser linking (Some c) options))
  = match InAppBrowser.isAvailable browser with
    | Resolved _ =>
        [replace "redirect_uri" "post_logout_redirect_uri" built
         ++ "&id_token_hint=" ++ idToken]
    | Rejected _ => []
    end.
Proof.
  intros Htok Hne Hurl Hbuilt.
  pose proof (logout_try_with_url c options idToken built _
                Htok Hne Hurl Hbuilt eq_refl) as Htry.
  unfold calls, RNAdapter.logout, try_catch, run in *.
  rewrite Htry. unfold RNAdapter.logout_catch, throw.
  destruct (InAppBrowser.isAvailable browser) as [[|]|e].
  - cbv zeta.
    destruct (InAppBrowser.openAuth browser _ _ None) as [res|[m|v]];
      [|reflexivity|reflexivity].
    destruct (BrowserResult.type res =? "success").
    + destruct (KeycloakInstance.clearToken c) as [|[m|v]]; reflexivity.
    + destruct ((BrowserResult.type res =? "cancel")
                || (BrowserResult.type res =? "dismiss")); reflexivity.
  - destruct (Linking.openURL linking _) as [|[m|v]];
      [|reflexivity|reflexivity].
    destruct (KeycloakInstance.clearToken c) as [|[m|v]]; reflexivity.
  - destruct e; reflexivity.
Qed.

(** C3.  When the client is absent, or its identity token is absent or
    empty, [logout] rejects with the re-wrapped "missing" error and its call
    log is empty: no logout URL was built, the in-app browser was neither
    queried nor opened, and the URL opener was not called. *)
Theorem logout_without_token_calls_nobody
  (client : option KeycloakInstance.t)
  (options : option KeycloakLogoutOptions.t) :
  client = None
  \/ (exists c, client = Some c
       /\ (KeycloakInstance.idToken c = None
           \/ KeycloakInstance.idToken c = Some "")) ->
  run (RNAdapter.logout browser linking client options)
  = (Rejected (ErrorObj
       "Logout process failed: Keycloak instance or ID token is missing."),
     []).
Proof.
  intros [->|[c [-> Htok]]]; [reflexivity|].
  unfold RNAdapter.logout, RNAdapter.logout_try.
  destruct Htok as [-> | ->]; reflexivity.
Qed.

(** C2, as amended.  Once the client (holding a non-empty identity token)
    has built a logout URL whose redirect parameter [redirect_uri=], after
    [?] or [&], is the leftmost occurrence of [redirect_uri] in it, every
    URL [logout] hands to the in-app browser or to the URL opener is that
    URL with the parameter renamed to [post_logout_redirect_uri=], the rest
    as it was, and [&id_token_hint=<idToken>] appended; and when the
    availability query answers, exactly one URL is handed over. *)
Theorem logout_renames_leading_redirect_parameter (c : KeycloakInstance.t)
  (options : option KeycloakLogoutOptions.t)
  (idToken head sep tail : string) :
  KeycloakInstance.idToken c = Some idToken -> idToken <> "" ->
  KeycloakInstance.createLogoutUrl c options
  = Resolved (Some (head ++ sep ++ "redirect_uri=" ++ tail)) ->
  sep = "?" \/ sep = "&" ->
  (forall k, k < String.length (head ++ sep) ->
     prefix "redirect_uri"
       (skip k (head ++ sep ++ "redirect_uri=" ++ tail)) = false) ->
  let opened :=
    opened_urls (calls (RNAdapter.logout browser linking (Some c) options)) in
  let expected :=
    head ++ sep ++ "post_logout_redirect_uri=" ++ tail
    ++ "&id_token_hint=" ++ idToken in
  (forall url, In url opened -> url = expected)
  /\ (forall available,
        InAppBrowser.isAvailable browser = Resolved available ->
        opened = [expected]).
Proof.
  intros Htok Hne Hurl Hsep Hfirst opened expected.
  assert (Hbuilt : head ++ sep ++ "redirect_uri=" ++ tail <> "").
  { destruct head; [|discriminate].
    destruct Hsep as [-> | ->]; discriminate. }
  assert (Hshape : head ++ sep ++ "redirect_uri=" ++ tail
                   = (head ++ sep) ++ "redirect_uri" ++ "=" ++ tail)
    by (rewrite append_assoc; reflexivity).
  assert (Hopened :
    opened = match InAppBrowser.isAvailable browser with
             | Resolved _ => [expected]
             | Rejected _ => []
             end).
  { subst opened.
    rewrite (logout_opened_urls c options idToken _ Htok Hne Hurl Hbuilt).
    destruct (InAppBrowser.isAvailable browser); [|reflexivity].
    rewrite Hshape in Hfirst |- *.
    rewrite (replace_leftmost _ _ (head ++ sep) ("=" ++ tail) Hfirst).
    subst expected. rewrite !append_assoc. reflexivity. }
  split.
  - intros url Hin. rewrite Hopened in Hin.
    destruct (InAppBrowser.isAvailable browser); simpl in Hin;
      [destruct Hin as [<-|[]]; reflexivity | contradiction].
  - intros available Hav. rewrite Hopened, Hav. reflexivity.
Qed.

(** C1, as amended.  With a non-empty token, a logout URL built and the
    in-app browser reporting itself unavailable, [logout] hands the
    rewritten URL to the URL opener and awaits it.  If the opener resolves,
    [clearToken] is called next and [logout] settles as [clearToken] does
    (a failure of it re-wrapped); if the opener rejects, [clearToken] is not
    called and [logout] rejects with the opener's failure re-wrapped. *)
Theorem logout_fallback_awaits_opener (c : KeycloakInstance.t)
  (options : option KeycloakLogoutOptions.t) (idToken built : string) :
  KeycloakInstance.idToken c = Some idToken -> idToken <> "" ->
  KeycloakInstance.createLogoutUrl c options = Resolved (Some built) ->
  built <> "" ->
  InAppBrowser.isAvailable browser = Resolved false ->
  let logoutUrl :=
    replace "redirect_uri" "post_logout_redirect_uri" built
    ++ "&id_token_hint=" ++ idToken in
  let rewrap (inner : thrown) : thrown :=
    match inner with
    | ErrorObj message => ErrorObj ("Logout process failed: " ++ message)
    | NonError _ => ErrorObj "An unknown error occurred during logout."
    end in
  (forall done, Linking.openURL linking logoutUrl = Resolved done ->
     run (RNAdapter.logout browser linking (Some c) options)
     = (match KeycloakInstance.clearToken c with
        | Resolved v => Resolved v
        | Rejected inner => Rejected (rewrap inner)
        end,
        [CreateLogoutUrl options; IsAvailable; OpenURL logoutUrl;
         ClearToken]))
  /\ (forall inner, Linking.openURL linking logoutUrl = Rejected inner ->
        run (RNAdapter.logout browser linking (Some c) options)
        = (Rejected (rewrap inner),
           [CreateLogoutUrl options; IsAvailable; OpenURL logoutUrl])).
Proof.
  intros Htok Hne Hurl Hbuilt Hav logoutUrl rewrap.
  pose proof (logout_try_with_url c options idToken built logoutUrl
                Htok Hne Hurl Hbuilt eq_refl) as Htry.
  rewrite Hav in Htry.
  unfold RNAdapter.logout, try_catch, run in *.
  split.
  - intros done Hopen. rewrite Hopen in Htry. rewrite Htry.
    destruct (KeycloakInstance.clearToken c) as [|[m|v]]; reflexivity.
  - intros inner Hopen. rewrite Hopen in Htry. rewrite Htry.
    destruct inner; reflexivity.
Qed.

(** C4.  Whatever the [try] block of [logout] ends with is what [logout]
    re-raises: an [Error] with message [m] becomes the error
    "Logout process failed: m", any other thrown value becomes the generic
    error; a rejection of [logout] always has one of these two shapes.  The
    failures the block can end with are the adapter's own four errors and
    the failures of the collaborators it calls (URL builder, availability
    query, in-app browser, URL opener, [clearToken]). *)
Theorem logout_failures_rewrapped (client : option KeycloakInstance.t)
  (options : option KeycloakLogoutOptions.t) :
  (forall message log,
     run (RNAdapter.logout_try browser linking client options)
     = (Rejected (ErrorObj message), log) ->
     run (RNAdapter.logout browser linking client options)
     = (Rejected (ErrorObj ("Logout process failed: " ++ message)), log))
  /\ (forall value log,
        run (RNAdapter.logout_try browser linking client options)
        = (Rejected (NonError value), log) ->
        run (RNAdapter.logout browser linking client options)
        = (Rejected (ErrorObj "An unknown error occurred during logout."),
           log))
  /\ (forall e,
        outcome (RNAdapter.logout browser linking client options)
        = Rejected e ->
        e = ErrorObj "An unknown error occurred during logout."
        \/ exists message,
             e = ErrorObj ("Logout process failed: " ++ message))
  /\ (forall inner,
        outcome (RNAdapter.logout_try browser linking client options)
        = Rejected inner ->
        In inner
          [ErrorObj "Keycloak instance or ID token is missing.";
           ErrorObj "Unable to create logout URL.";
           ErrorObj "User has closed the browser";
           ErrorObj "Logout process failed in InAppBrowser."]
        \/ InAppBrowser.isAvailable browser = Rejected inner
        \/ (exists url redirect,
              InAppBrowser.openAuth browser url redirect None
              = Rejected inner)
        \/ (exists url, Linking.openURL linking url = Rejected inner)
        \/ (exists c, client = Some c
             /\ (KeycloakInstance.createLogoutUrl c options = Rejected inner
                 \/ KeycloakInstance.clearToken c = Rejected inner))).
Proof.
  split; [|split; [|split]].
  - intros message log Htry.
    unfold RNAdapter.logout, try_catch, run in *. rewrite Htry. reflexivity.
  - intros value log Htry.
    unfold RNAdapter.logout, try_catch, run in *. rewrite Htry. reflexivity.
  - intros e. unfold outcome, RNAdapter.logout, try_catch, run.
    destruct (RNAdapter.logout_try browser linking client options [])
      as [[v|[m|v]] log]; simpl; intros E; [discriminate| |].
    + right. exists m. congruence.
    + left. congruence.
  - intros inner. unfold outcome.
    destruct client as [c|];
      [|simpl; intros E; left; left; congruence].
    destruct (KeycloakInstance.idToken c) as [idToken|] eqn:Htok;
      [|unfold RNAdapter.logout_try; rewrite Htok; simpl; intros E;
        left; left; congruence].
    destruct (String.eqb_spec idToken "") as [->|Hne];
      [unfold RNAdapter.logout_try; rewrite Htok; simpl; intros E;
       left; left; congruence|].
    destruct (KeycloakInstance.createLogoutUrl c options)
      as [[built|]|e] eqn:Hurl.
    + destruct (String.eqb_spec built "") as [->|Hbuilt].
      * unfold RNAdapter.logout_try. rewrite Htok.
        rewrite (if_truthy_nonempty _ _ _ Hne). unfold_async.
        rewrite Hurl. simpl. intros E. left. right. left. congruence.
      * rewrite (logout_try_with_url c options idToken built _
                   Htok Hne Hurl Hbuilt eq_refl).
        destruct (InAppBrowser.isAvailable browser) as [[|]|e] eqn:Hav.
        -- cbv zeta.
           destruct (InAppBrowser.openAuth browser _ _ None)
             as [res|e] eqn:Hopen.
           ++ destruct (BrowserResult.type res =? "success").
              ** simpl. intros E. do 4 right. exists c. auto.
              ** destruct ((BrowserResult.type res =? "cancel")
                           || (BrowserResult.type res =? "dismiss"));
                   simpl; intros E; left; inversion E; simpl; auto.
           ++ simpl. intros E. right. right. left.
              inversion E; subst. eauto.
        -- destruct (Linking.openURL linking _) as [|e] eqn:Hopen.
           ++ simpl. intros E. do 4 right. exists c. auto.
           ++ simpl. intros E. do 3 right. left.
              inversion E; subst. eauto.
        -- simpl. intros E. right. left. congruence.
    + unfold RNAdapter.logout_try. rewrite Htok.
      rewrite (if_truthy_nonempty _ _ _ Hne). unfold_async.
      rewrite Hurl. simpl. intros E. left. right. left. congruence.
    + unfold RNAdapter.logout_try. rewrite Htok.
      rewrite (if_truthy_nonempty _ _ _ Hne). unfold_async.
      rewrite Hurl. simpl. intros E. do 4 right. exists c.
      split; [reflexivity|]. left. congruence.
Qed.

(** C10.  Only the leftmost match of [redirect_uri] is rewritten.  Whenever
    the URL the client built reads [pre ++ "redirect_uri" ++ post] with no
    match starting inside [pre], the URL [logout] hands over is
    [pre ++ "post_logout_redirect_uri" ++ post] followed by the token hint:
    [post] is copied as it is, whatever further matches it holds, and [pre]
    may end inside another parameter's name.  Every built URL that holds a
    match splits this way. *)
Theorem logout_rewrites_leftmost_match_only (c : KeycloakInstance.t)
  (options : option KeycloakLogoutOptions.t) (idToken built : string)
  (available : bool) :
  KeycloakInstance.idToken c = Some idToken -> idToken <> "" ->
  KeycloakInstance.createLogoutUrl c options = Resolved (Some built) ->
  built <> "" ->
  InAppBrowser.isAvailable browser = Resolved available ->
  let opened :=
    opened_urls (calls (RNAdapter.logout browser linking (Some c) options)) in
  let leftmost_at (pre : string) : Prop :=
    forall k, k < String.length pre ->
              prefix "redirect_uri" (skip k built) = false in
  (forall pre post,
     built = pre ++ "redirect_uri" ++ post -> leftmost_at pre ->
     opened = [pre ++ "post_logout_redirect_uri" ++ post
               ++ "&id_token_hint=" ++ idToken])
  /\ ((exists k, prefix "redirect_uri" (skip k built) = true) ->
      exists pre post,
        built = pre ++ "redirect_uri" ++ post /\ leftmost_at pre
        /\ opened = [pre ++ "post_logout_redirect_uri" ++ post
                     ++ "&id_token_hint=" ++ idToken]).
Proof.
  intros Htok Hne Hurl Hbuilt Hav opened leftmost_at.
  assert (Hsplit : forall pre post,
            built = pre ++ "redirect_uri" ++ post -> leftmost_at pre ->
            opened = [pre ++ "post_logout_redirect_uri" ++ post
                      ++ "&id_token_hint=" ++ idToken]).
  { intros pre post Hshape Hfirst. subst opened.
    rewrite (logout_opened_urls c options idToken _ Htok Hne Hurl Hbuilt), Hav.
    unfold leftmost_at in Hfirst. rewrite Hshape in Hfirst |- *.
    rewrite (replace_leftmost _ _ pre post Hfirst).
    rewrite !append_assoc. reflexivity. }
  split; [exact Hsplit|].
  intros Hmatch.
  destruct (leftmost_match_exists "redirect_uri" built Hmatch)
    as [pre [post [Hshape Hfirst]]].
  exists pre, post. auto.
Qed.

End LogoutFacts.

(** ** Login and registration *)

Section BrowserFlows.
Context `{Payloads}.
Variable browser : InAppBrowser.t.
Variable typeError : string.
Variable initOptions : RNKeycloakInitOptions.t.

(** Both flows up to the answer of [openAuth]. *)
Lemma login_until_answer (c : KeycloakInstance.t)
  (options : option KeycloakLoginOptions) (loginUrl : string)
  (res : BrowserResult.t) :
  KeycloakInstance.createLoginUrl c options = Resolved loginUrl ->
  InAppBrowser.isAvailable browser = Resolved true ->
  InAppBrowser.openAuth browser loginUrl (KeycloakInstance.redirectUri c)
    (RNKeycloakInitOptions.inAppBrowserOptions initOptions) = Resolved res ->
  run (RNAdapter.login browser typeError (Some c) initOptions options)
  = (let otherwise :=
       if BrowserResult.type res =? "cancel" then
         throw (ErrorObj "User has closed the browser")
       else throw (ErrorObj "Authentication flow failed") in
     if BrowserResult.type res =? "success" then
       if_truthy (BrowserResult.url res)
         (fun url =>
            oauth <- call (ParseCallback url)
                          (KeycloakInstance.parseCallback c url) ;;
            call (ProcessCallback oauth)
                 (KeycloakInstance.processCallback c oauth))
         otherwise
     else otherwise)
      [CreateLoginUrl options; IsAvailable;
       OpenAuth loginUrl (KeycloakInstance.redirectUri c)
         (RNKeycloakInitOptions.inAppBrowserOptions initOptions)].
Proof.
  intros Hurl Hav Hopen.
  unfold RNAdapter.login, RNAdapter.the_client, run, bind, call, ret.
  rewrite Hurl, Hav. cbv zeta. cbn [app]. rewrite Hopen. reflexivity.
Qed.

Lemma register_until_answer (c : KeycloakInstance.t)
  (options : option KeycloakRegisterOptions) (registerUrl : string)
  (res : BrowserResult.t) :
  KeycloakInstance.createRegisterUrl c options = Resolved registerUrl ->
  InAppBrowser.isAvailable browser = Resolved true ->
  InAppBrowser.openAuth browser registerUrl (KeycloakInstance.redirectUri c)
    (RNKeycloakInitOptions.inAppBrowserOptions initOptions) = Resolved res ->
  run (RNAdapter.register browser typeError (Some c) initOptions options)
  = (let otherwise := throw (ErrorObj "Registration flow failed") in
     if BrowserResult.type res =? "success" then
       if_truthy (BrowserResult.url res)
         (fun url =>
            oauth <- call (ParseCallback url)
                          (KeycloakInstance.parseCallback c url) ;;
            call (ProcessCallback oauth)
                 (KeycloakInstance.processCallback c oauth))
         otherwise
     else otherwise)
      [CreateRegisterUrl options; IsAvailable;
       OpenAuth registerUrl (KeycloakInstance.redirectUri c)
         (RNKeycloakInitOptions.inAppBrowserOptions initOptions)].
Proof.
  intros Hurl Hav Hopen.
  unfold RNAdapter.register, RNAdapter.the_client, run, bind, call, ret.
  rewrite Hurl, Hav. cbv zeta. cbn [app]. rewrite Hopen. reflexivity.
Qed.

(** C5.  When [openAuth] answers with type [success] and a (non-empty) URL,
    [login] and [register] call [parseCallback] with exactly that URL, hand
    what it returns to [processCallback], and settle as [processCallback]
    does; nothing else is called after the browser.  Should the parser
    throw, the flow rejects with the parser's failure. *)
Theorem success_routes_callback (c : KeycloakInstance.t)
  (res : BrowserResult.t) (url : string) :
  InAppBrowser.isAvailable browser = Resolved true ->
  BrowserResult.type res = "success" ->
  BrowserResult.url res = Some url -> url <> "" ->
  let redirect := KeycloakInstance.redirectUri c in
  let opts := RNKeycloakInitOptions.inAppBrowserOptions initOptions in
  let routed (before : list event) : settled unit * list event :=
    match KeycloakInstance.parseCallback c url with
    | Resolved oauth =>
        (KeycloakInstance.processCallback c oauth,
         (before ++ [ParseCallback url; ProcessCallback oauth])%list)
    | Rejected e => (Rejected e, (before ++ [ParseCallback url])%list)
    end in
  (forall options loginUrl,
     KeycloakInstance.createLoginUrl c options = Resolved loginUrl ->
     InAppBrowser.openAuth browser loginUrl redirect opts = Resolved res ->
     run (RNAdapter.login browser typeError (Some c) initOptions options)
     = routed [CreateLoginUrl options; IsAvailable;
               OpenAuth loginUrl redirect opts])
  /\ (forall options registerUrl,
        KeycloakInstance.createRegisterUrl c options = Resolved registerUrl ->
        InAppBrowser.openAuth browser registerUrl redirect opts
        = Resolved res ->
        run (RNAdapter.register browser typeError (Some c) initOptions options)
        = routed [CreateRegisterUrl options; IsAvailable;
                  OpenAuth registerUrl redirect opts]).
Proof.
  intros Hav Htype Hres Hne redirect opts routed. split.
  - intros options loginUrl Hurl Hopen.
    rewrite (login_until_answer c options loginUrl res Hurl Hav Hopen).
    rewrite Htype, Hres. cbv zeta. cbn [String.eqb Ascii.eqb Bool.eqb].
    rewrite (if_truthy_nonempty _ _ _ Hne). unfold routed, bind, call.
    destruct (KeycloakInstance.parseCallback c url); reflexivity.
  - intros options registerUrl Hurl Hopen.
    rewrite (register_until_answer c options registerUrl res Hurl Hav Hopen).
    rewrite Htype, Hres. cbv zeta. cbn [String.eqb Ascii.eqb Bool.eqb].
    rewrite (if_truthy_nonempty _ _ _ Hne). unfold routed, bind, call.
    destruct (KeycloakInstance.parseCallback c url); reflexivity.
Qed.

(** C6.  When [openAuth] answers with type [cancel], whatever else the
    answer carries, [login] rejects with "User has closed the browser"
    while [register] rejects with "Registration flow failed"; neither calls
    the parser or the processor. *)
Theorem cancel_is_told_apart_by_login_only (c : KeycloakInstance.t)
  (res : BrowserResult.t) :
  InAppBrowser.isAvailable browser = Resolved true ->
  BrowserResult.type res = "cancel" ->
  let redirect := KeycloakInstance.redirectUri c in
  let opts := RNKeycloakInitOptions.inAppBrowserOptions initOptions in
  (forall options loginUrl,
     KeycloakInstance.createLoginUrl c options = Resolved loginUrl ->
     InAppBrowser.openAuth browser loginUrl redirect opts = Resolved res ->
     run (RNAdapter.login browser typeError (Some c) initOptions options)
     = (Rejected (ErrorObj "User has closed the browser"),
        [CreateLoginUrl options; IsAvailable;
         OpenAuth loginUrl redirect opts]))
  /\ (forall options registerUrl,
        KeycloakInstance.createRegisterUrl c options = Resolved registerUrl ->
        InAppBrowser.openAuth browser registerUrl redirect opts
        = Resolved res ->
        run (RNAdapter.register browser typeError (Some c) initOptions options)
        = (Rejected (ErrorObj "Registration flow failed"),
           [CreateRegisterUrl options; IsAvailable;
            OpenAuth registerUrl redirect opts])).
Proof.
  intros Hav Htype redirect opts. split.
  - intros options loginUrl Hurl Hopen.
    rewrite (login_until_answer c options loginUrl res Hurl Hav Hopen).
    rewrite Htype. reflexivity.
  - intros options registerUrl Hurl Hopen.
    rewrite (register_until_answer c options registerUrl res Hurl Hav Hopen).
    rewrite Htype. reflexivity.
Qed.

(** C9.  [accountManagement]: when the client returns no account URL the
    call rejects with the value "Not supported by the OIDC server" having
    called the URL builder only; when it returns one, that URL is opened
    with [InAppBrowser.open] (the plain view, not [openAuth]) under the
    adapter's [inAppBrowserOptions], and the call settles as [open] does. *)
Theorem accountManagement_opens_or_rejects (c : KeycloakInstance.t) :
  let opts := RNKeycloakInitOptions.inAppBrowserOptions initOptions in
  (KeycloakInstance.createAccountUrl c = Resolved None ->
   run (RNAdapter.accountManagement browser typeError (Some c) initOptions)
   = (Rejected (NonError "Not supported by the OIDC server"),
      [CreateAccountUrl]))
  /\ (forall url,
        KeycloakInstance.createAccountUrl c = Resolved (Some url) ->
        run (RNAdapter.accountManagement browser typeError (Some c)
               initOptions)
        = (InAppBrowser.open browser url opts,
           [CreateAccountUrl; Open url opts])).
Proof.
  intros opts. split.
  - intros Hurl.
    unfold RNAdapter.accountManagement, RNAdapter.the_client, run, bind,
      call, ret.
    rewrite Hurl. reflexivity.
  - intros url Hurl.
    unfold RNAdapter.accountManagement, RNAdapter.the_client, run, bind,
      call, ret.
    rewrite Hurl. reflexivity.
Qed.

End BrowserFlows.

(** ** Token requests *)

Section TokenHelpers.
Context `{Payloads}.
Variable fetch : string -> RequestInit.t -> settled Response.t.

(** C7.  [fetchTokens] and [refreshTokens] issue one [fetch]: a [POST] with
    the header [Content-type: application/x-www-form-urlencoded] and the
    form string as body.  Given its response, a status that is not [ok]
    makes the call reject with "fetchTokens failed" (respectively
    "refreshTokens failed") and nothing more is called; an [ok] status makes
    the call settle as the JSON parse of the body does, so it resolves with
    the parsed body.  No second request is ever made. *)
Theorem token_helpers_single_post (tokenUrl params : string)
  (tokenRes : Response.t) :
  let request :=
    {| RequestInit.method := "POST";
       RequestInit.headers :=
         [("Content-type", "application/x-www-form-urlencoded")];
       RequestInit.body := params |} in
  fetch tokenUrl request = Resolved tokenRes ->
  (Response.ok tokenRes = false ->
   run (RNAdapter.fetchTokens fetch tokenUrl params)
   = (Rejected (ErrorObj "fetchTokens failed"), [Fetch tokenUrl request])
   /\ run (RNAdapter.refreshTokens fetch tokenUrl params)
      = (Rejected (ErrorObj "refreshTokens failed"), [Fetch tokenUrl request]))
  /\ (Response.ok tokenRes = true ->
      run (RNAdapter.fetchTokens fetch tokenUrl params)
      = (Response.json tokenRes, [Fetch tokenUrl request; ResponseJson])
      /\ run (RNAdapter.refreshTokens fetch tokenUrl params)
         = (Response.json tokenRes, [Fetch tokenUrl request; ResponseJson]))
  /\ (forall parsed,
        Response.ok tokenRes = true ->
        Response.json tokenRes = Resolved parsed ->
        outcome (RNAdapter.fetchTokens fetch tokenUrl params)
        = Resolved parsed
        /\ outcome (RNAdapter.refreshTokens fetch tokenUrl params)
           = Resolved parsed).
Proof.
  intros request Hfetch.
  unfold outcome, run, RNAdapter.fetchTokens, RNAdapter.refreshTokens, bind,
    call, throw, RNAdapter.tokenRequest.
  fold request. rewrite Hfetch.
  split; [|split].
  - intros ->. split; reflexivity.
  - intros ->. split; reflexivity.
  - intros parsed -> ->. split; reflexivity.
Qed.

End TokenHelpers.

(** ** Redirect URI *)

Section RedirectUri.
Context `{Payloads}.
Variable typeError : string.

(** C8.  [redirectUri] returns [options.redirectUri] when it is supplied
    (present and not empty, which is what the source tests), otherwise the
    client's configured redirect URI (on the same test), otherwise the empty
    string.  In particular [redirectUri({})] with nothing configured on the
    client returns [''], and with [options.redirectUri = "x"] it returns
    ["x"] whatever the client, even an absent one. *)
Theorem redirectUri_resolution (client : option KeycloakInstance.t) :
  (forall options uri,
     KeycloakLogoutOptions.redirectUri_of options = Some uri -> uri <> "" ->
     RNAdapter.redirectUri typeError client options = Resolved uri)
  /\ (forall c options uri,
        client = Some c ->
        truthy (KeycloakLogoutOptions.redirectUri_of options) = false ->
        KeycloakInstance.redirectUri c = Some uri -> uri <> "" ->
        RNAdapter.redirectUri typeError client options = Resolved uri)
  /\ (forall c options,
        client = Some c ->
        truthy (KeycloakLogoutOptions.redirectUri_of options) = false ->
        truthy (KeycloakInstance.redirectUri c) = false ->
        RNAdapter.redirectUri typeError client options = Resolved "")
  /\ (forall c,
        client = Some c -> KeycloakInstance.redirectUri c = None ->
        RNAdapter.redirectUri typeError client
          (Some {| KeycloakLogoutOptions.redirectUri := None |})
        = Resolved "")
  /\ RNAdapter.redirectUri typeError client
       (Some {| KeycloakLogoutOptions.redirectUri := Some "x" |})
     = Resolved "x".
Proof.
  unfold RNAdapter.redirectUri. repeat split.
  - intros options uri -> Hne. apply if_truthy_nonempty, Hne.
  - intros c options uri -> Hopt Hcfg Hne.
    rewrite (if_truthy_falsy _ _ _ Hopt), Hcfg.
    apply if_truthy_nonempty, Hne.
  - intros c options -> Hopt Hcfg.
    rewrite (if_truthy_falsy _ _ _ Hopt). apply if_truthy_falsy, Hcfg.
  - intros c -> Hcfg. simpl. rewrite Hcfg. reflexivity.
Qed.

End RedirectUri.

(** ** Every answer the collaborators may give *)

(** Unfolds a flow down to the answers of its collaborators. *)
Ltac unfold_flows :=
  unfold calls, outcome, run, RNAdapter.login, RNAdapter.register,
    RNAdapter.accountManagement, RNAdapter.logout, RNAdapter.logout_try,
    RNAdapter.logout_catch, RNAdapter.the_client, RNAdapter.fetchTokens,
    RNAdapter.refreshTokens, try_catch, bind, call, throw, ret, if_truthy.

(** Splits on the next answer the flow inspects. *)
Ltac step_world :=
  match goal with
  | |- context [match ?x with _ => _ end] =>
      lazymatch x with
      | context [match _ with _ => _ end] => fail
      | _ => destruct x eqn:?
      end
  end;
  cbn [app fst snd].

Ltac all_worlds :=
  unfold_flows; cbn [app fst snd]; repeat step_world.

Section LogoutInvariants.
Context `{Payloads}.
Variable browser : InAppBrowser.t.
Variable linking : Linking.t.
Variable client : option KeycloakInstance.t.
Variable options : option KeycloakLogoutOptions.t.

(** X1.  Whatever the collaborators answer, if [logout] resolves then
    [clearToken] was its last call and resolved with the same value, and
    exactly one URL had been handed over before it. *)
Theorem logout_resolves_only_after_clearToken (v : unit) :
  outcome (RNAdapter.logout browser linking client options) = Resolved v ->
  exists c before,
    client = Some c
    /\ KeycloakInstance.clearToken c = Resolved v
    /\ calls (RNAdapter.logout browser linking client options)
       = (before ++ [ClearToken])%list
    /\ cleared before = false
    /\ length (opened_urls before) = 1.
Proof.
  all_worlds; intros E; try discriminate E;
    injection E as ->; eexists;
    lazymatch goal with
    | |- context [OpenURL ?u] =>
        exists [CreateLogoutUrl options; IsAvailable; OpenURL u]
    | |- context [OpenAuth ?u ?r ?o] =>
        exists [CreateLogoutUrl options; IsAvailable; OpenAuth u r o]
    end;
    repeat split; assumption.
Qed.

(** X2.  Whatever the collaborators answer, [logout] hands over at most one
    URL; and if it calls [clearToken] at all, that is its last call, made
    once, after exactly one URL was handed over. *)
Theorem logout_opens_and_clears_at_most_once :
  length (opened_urls (calls (RNAdapter.logout browser linking client options)))
  <= 1
  /\ (cleared (calls (RNAdapter.logout browser linking client options)) = true ->
      exists before,
        calls (RNAdapter.logout browser linking client options)
        = (before ++ [ClearToken])%list
        /\ cleared before = false
        /\ length (opened_urls before) = 1).
Proof.
  all_worlds; (split; [simpl; lia|]); simpl; intros E; try discriminate E;
    lazymatch goal with
    | |- context [OpenURL ?u] =>
        exists [CreateLogoutUrl options; IsAvailable; OpenURL u]
    | |- context [OpenAuth ?u ?r ?o] =>
        exists [CreateLogoutUrl options; IsAvailable; OpenAuth u r o]
    end;
    repeat split.
Qed.

End LogoutInvariants.

(** ** Logout through the in-app browser, and where it stops *)

Section LogoutPaths.
Context `{Payloads}.
Variable browser : InAppBrowser.t.
Variable linking : Linking.t.

(** X3.  With a token and a logout URL in hand and the in-app browser
    available, an [openAuth] answer of type [success] (with or without a
    URL) makes [logout] call [clearToken] and settle as it does, a failure
    of it re-wrapped.  The session is opened on the rewritten URL with
    [options.redirectUri || client.redirectUri] and no browser options. *)
Theorem logout_browser_success (c : KeycloakInstance.t)
  (options : option KeycloakLogoutOptions.t) (idToken built : string)
  (res : BrowserResult.t) :
  KeycloakInstance.idToken c = Some idToken -> idToken <> "" ->
  KeycloakInstance.createLogoutUrl c options = Resolved (Some built) ->
  built <> "" ->
  InAppBrowser.isAvailable browser = Resolved true ->
  let logoutUrl :=
    replace "redirect_uri" "post_logout_redirect_uri" built
    ++ "&id_token_hint=" ++ idToken in
  let redirect :=
    logical_or (KeycloakLogoutOptions.redirectUri_of options)
      (KeycloakInstance.redirectUri c) in
  InAppBrowser.openAuth browser logoutUrl redirect None = Resolved res ->
  BrowserResult.type res = "success" ->
  run (RNAdapter.logout browser linking (Some c) options)
  = (match KeycloakInstance.clearToken c with
     | Resolved v => Resolved v
     | Rejected (ErrorObj message) =>
         Rejected (ErrorObj ("Logout process failed: " ++ message))
     | Rejected (NonError _) =>
         Rejected (ErrorObj "An unknown error occurred during logout.")
     end,
     [CreateLogoutUrl options; IsAvailable; OpenAuth logoutUrl redirect None;
      ClearToken]).
Proof.
  intros Htok Hne Hurl Hbuilt Hav logoutUrl redirect Hopen Htype.
  pose proof (logout_try_with_url browser linking c options idToken built
                logoutUrl Htok Hne Hurl Hbuilt eq_refl) as Htry.
  rewrite Hav in Htry. cbv zeta in Htry. fold redirect in Htry.
  rewrite Hopen, Htype in Htry.
  unfold RNAdapter.logout, try_catch, run in *. rewrite Htry.
  cbn [String.eqb Ascii.eqb Bool.eqb app].
  destruct (KeycloakInstance.clearToken c) as [|[m|v]]; reflexivity.
Qed.

(** X4.  On the same path, an answer of type [cancel] or [dismiss] makes
    [logout] reject with "Logout process failed: User has closed the
    browser", and any type other than [success], [cancel] and [dismiss] with
    "Logout process failed: Logout process failed in InAppBrowser."; in
    both cases [clearToken] is not called. *)
Theorem logout_browser_refusal (c : KeycloakInstance.t)
  (options : option KeycloakLogoutOptions.t) (idToken built : string)
  (res : BrowserResult.t) :
  KeycloakInstance.idToken c = Some idToken -> idToken <> "" ->
  KeycloakInstance.createLogoutUrl c options = Resolved (Some built) ->
  built <> "" ->
  InAppBrowser.isAvailable browser = Resolved true ->
  let logoutUrl :=
    replace "redirect_uri" "post_logout_redirect_uri" built
    ++ "&id_token_hint=" ++ idToken in
  let redirect :=
    logical_or (KeycloakLogoutOptions.redirectUri_of options)
      (KeycloakInstance.redirectUri c) in
  InAppBrowser.openAuth browser logoutUrl redirect None = Resolved res ->
  let log :=
    [CreateLogoutUrl options; IsAvailable;
     OpenAuth logoutUrl redirect None] in
  (BrowserResult.type res = "cancel" \/ BrowserResult.type res = "dismiss" ->
   run (RNAdapter.logout browser linking (Some c) options)
   = (Rejected (ErrorObj
        "Logout process failed: User has closed the browser"), log))
  /\ (BrowserResult.type res <> "success" ->
      BrowserResult.type res <> "cancel" ->
      BrowserResult.type res <> "dismiss" ->
      run (RNAdapter.logout browser linking (Some c) options)
      = (Rejected (ErrorObj
           "Logout process failed: Logout process failed in InAppBrowser."),
         log)).
Proof.
  intros Htok Hne Hurl Hbuilt Hav logoutUrl redirect Hopen log.
  pose proof (logout_try_with_url browser linking c options idToken built
                logoutUrl Htok Hne Hurl Hbuilt eq_refl) as Htry.
  rewrite Hav in Htry. cbv zeta in Htry. fold redirect in Htry.
  rewrite Hopen in Htry.
  unfold RNAdapter.logout, try_catch, run in *. rewrite Htry. split.
  - intros [E|E]; rewrite E; reflexivity.
  - intros Hs Hc Hd.
    apply String.eqb_neq in Hs, Hc, Hd. rewrite Hs, Hc, Hd. reflexivity.
Qed.

(** X5.  [logout] stops at the first step that fails, having called nothing
    further: a throwing URL builder leaves the log at the builder call; an
    absent or empty URL gives "Logout process failed: Unable to create
    logout URL." with no availability query; a rejected availability query
    leaves nothing opened; a rejected [openAuth] leaves [clearToken]
    uncalled.  Each collaborator failure comes out re-wrapped. *)
Theorem logout_stops_at_first_failure (c : KeycloakInstance.t)
  (options : option KeycloakLogoutOptions.t) (idToken : string) :
  KeycloakInstance.idToken c = Some idToken -> idToken <> "" ->
  let rewrap (inner : thrown) : thrown :=
    match inner with
    | ErrorObj message => ErrorObj ("Logout process failed: " ++ message)
    | NonError _ => ErrorObj "An unknown error occurred during logout."
    end in
  let redirect :=
    logical_or (KeycloakLogoutOptions.redirectUri_of options)
      (KeycloakInstance.redirectUri c) in
  (forall inner,
     KeycloakInstance.createLogoutUrl c options = Rejected inner ->
     run (RNAdapter.logout browser linking (Some c) options)
     = (Rejected (rewrap inner), [CreateLogoutUrl options]))
  /\ (forall created,
        KeycloakInstance.createLogoutUrl c options = Resolved created ->
        truthy created = false ->
        run (RNAdapter.logout browser linking (Some c) options)
        = (Rejected (ErrorObj
             "Logout process failed: Unable to create logout URL."),
           [CreateLogoutUrl options]))
  /\ (forall built inner,
        KeycloakInstance.createLogoutUrl c options = Resolved (Some built) ->
        built <> "" ->
        InAppBrowser.isAvailable browser = Rejected inner ->
        run (RNAdapter.logout browser linking (Some c) options)
        = (Rejected (rewrap inner), [CreateLogoutUrl options; IsAvailable]))
  /\ (forall built inner,
        KeycloakInstance.createLogoutUrl c options = Resolved (Some built) ->
        built <> "" ->
        InAppBrowser.isAvailable browser = Resolved true ->
        let logoutUrl :=
          replace "redirect_uri" "post_logout_redirect_uri" built
          ++ "&id_token_hint=" ++ idToken in
        InAppBrowser.openAuth browser logoutUrl redirect None
        = Rejected inner ->
        run (RNAdapter.logout browser linking (Some c) options)
        = (Rejected (rewrap inner),
           [CreateLogoutUrl options; IsAvailable;
            OpenAuth logoutUrl redirect None])).
Proof.
  intros Htok Hne rewrap redirect.
  assert (Hstart :
    run (RNAdapter.logout_try browser linking (Some c) options)
    = match KeycloakInstance.createLogoutUrl c options with
      | Rejected inner => (Rejected inner, [CreateLogoutUrl options])
      | Resolved created =>
          if truthy created
          then run (RNAdapter.logout_try browser linking (Some c) options)
          else (Rejected (ErrorObj "Unable to create logout URL."),
                [CreateLogoutUrl options])
      end).
  { destruct (KeycloakInstance.createLogoutUrl c options)
      as [created|inner] eqn:Hurl.
    - destruct (truthy created) eqn:Hcreated; [reflexivity|].
      unfold RNAdapter.logout_try, run. rewrite Htok.
      rewrite (if_truthy_nonempty _ _ _ Hne). unfold bind, call.
      rewrite Hurl, (if_truthy_falsy _ _ _ Hcreated). reflexivity.
    - unfold RNAdapter.logout_try, run. rewrite Htok.
      rewrite (if_truthy_nonempty _ _ _ Hne). unfold bind, call.
      rewrite Hurl. reflexivity. }
  unfold RNAdapter.logout, try_catch, run in *.
  split; [|split; [|split]].
  - intros inner Hurl. rewrite Hstart, Hurl. destruct inner; reflexivity.
  - intros created Hurl Hcreated. rewrite Hstart, Hurl, Hcreated. reflexivity.
  - intros built inner Hurl Hbuilt Hav.
    pose proof (logout_try_with_url browser linking c options idToken built
                  _ Htok Hne Hurl Hbuilt eq_refl) as Htry.
    unfold run in Htry. rewrite Htry, Hav. destruct inner; reflexivity.
  - intros built inner Hurl Hbuilt Hav. cbv zeta. intros Hopen.
    pose proof (logout_try_with_url browser linking c options idToken built
                  _ Htok Hne Hurl Hbuilt eq_refl) as Htry.
    unfold run in Htry. rewrite Htry, Hav. cbv zeta. fold redirect.
    rewrite Hopen. destruct inner; reflexivity.
Qed.

(** X6.  A built URL in which [redirect_uri] matches nowhere is handed over
    unchanged but for the appended [&id_token_hint=<idToken>]. *)
Theorem logout_without_match_appends_hint_only (c : KeycloakInstance.t)
  (options : option KeycloakLogoutOptions.t) (idToken built : string)
  (available : bool) :
  KeycloakInstance.idToken c = Some idToken -> idToken <> "" ->
  KeycloakInstance.createLogoutUrl c options = Resolved (Some built) ->
  built <> "" ->
  InAppBrowser.isAvailable browser = Resolved available ->
  (forall k, k <= String.length built ->
             prefix "redirect_uri" (skip k built) = false) ->
  opened_urls (calls (RNAdapter.logout browser linking (Some c) options))
  = [built ++ "&id_token_hint=" ++ idToken].
Proof.
  intros Htok Hne Hurl Hbuilt Hav Hnone.
  rewrite (logout_opened_urls browser linking c options idToken built
             Htok Hne Hurl Hbuilt), Hav.
  rewrite (replace_no_match _ _ built Hnone). reflexivity.
Qed.

(** What [redirectUri] computes, in terms of [||]. *)
Lemma redirectUri_as_logical_or (typeError : string) (c : KeycloakInstance.t)
  (options : option KeycloakLogoutOptions.t) :
  RNAdapter.redirectUri typeError (Some c) options
  = Resolved
      match logical_or (KeycloakLogoutOptions.redirectUri_of options)
              (KeycloakInstance.redirectUri c) with
      | Some uri => uri
      | None => ""
      end.
Proof.
  unfold RNAdapter.redirectUri, logical_or, truthy, if_truthy.
  destruct (KeycloakLogoutOptions.redirectUri_of options) as [a|];
    [destruct (String.eqb_spec a "") as [->|]; [|reflexivity]|];
    (destruct (KeycloakInstance.redirectUri c) as [b|]; [|reflexivity];
     destruct (String.eqb_spec b "") as [->|]; reflexivity).
Qed.

(** Every [openAuth] call of [logout] carries the same arguments. *)
Lemma logout_openAuth_arguments (c : KeycloakInstance.t)
  (options : option KeycloakLogoutOptions.t) (url : string)
  (redirect : option string) (opts : option InAppBrowserOptions) :
  In (OpenAuth url redirect opts)
     (calls (RNAdapter.logout browser linking (Some c) options)) ->
  opts = None
  /\ redirect = logical_or (KeycloakLogoutOptions.redirectUri_of options)
                  (KeycloakInstance.redirectUri c).
Proof.
  all_worlds; cbn [In]; intros Hin;
    repeat match goal with
           | Hin : _ \/ _ |- _ =>
               destruct Hin as [E|Hin];
               [try discriminate E; injection E as _ <- <-;
                split; reflexivity|]
           end;
    contradiction.
Qed.

(** X7.  The redirect [logout] passes to [openAuth] is the one [redirectUri]
    resolves for the same options, with [undefined] in place of the empty
    string when neither the options nor the client give one; and [logout]
    never passes browser options to [openAuth]. *)
Theorem logout_redirect_agrees_with_redirectUri (typeError : string)
  (c : KeycloakInstance.t) (options : option KeycloakLogoutOptions.t)
  (url : string) (redirect : option string)
  (opts : option InAppBrowserOptions) :
  In (OpenAuth url redirect opts)
     (calls (RNAdapter.logout browser linking (Some c) options)) ->
  opts = None
  /\ RNAdapter.redirectUri typeError (Some c) options
     = Resolved match redirect with
                | Some uri => uri
                | None => ""
                end.
Proof.
  intros Hin.
  destruct (logout_openAuth_arguments c options url redirect opts Hin)
    as [-> ->].
  split; [reflexivity | apply redirectUri_as_logical_or].
Qed.

End LogoutPaths.

(** ** Login, registration and account management off the main path *)

(** Closes a goal saying that a call is not in an explicit log. *)
Ltac not_in_log :=
  cbn [In]; intros Hin;
  repeat match goal with
         | Hin : _ \/ _ |- _ => destruct Hin as [E|Hin]; [discriminate E|]
         end;
  contradiction.

Section BrowserFlowEdges.
Context `{Payloads}.
Variable browser : InAppBrowser.t.
Variable typeError : string.
Variable initOptions : RNKeycloakInitOptions.t.

(** X8.  When the in-app browser reports itself unavailable, [login] and
    [register] reject with "InAppBrowser not available" after the URL
    builder and the availability query only: no browser session is opened
    and, unlike [logout], nothing is handed to the URL opener. *)
Theorem flows_need_the_in_app_browser (c : KeycloakInstance.t) :
  InAppBrowser.isAvailable browser = Resolved false ->
  (forall options loginUrl,
     KeycloakInstance.createLoginUrl c options = Resolved loginUrl ->
     run (RNAdapter.login browser typeError (Some c) initOptions options)
     = (Rejected (ErrorObj "InAppBrowser not available"),
        [CreateLoginUrl options; IsAvailable]))
  /\ (forall options registerUrl,
        KeycloakInstance.createRegisterUrl c options = Resolved registerUrl ->
        run (RNAdapter.register browser typeError (Some c) initOptions options)
        = (Rejected (ErrorObj "InAppBrowser not available"),
           [CreateRegisterUrl options; IsAvailable])).
Proof.
  intros Hav. split; intros options url Hurl;
    unfold RNAdapter.login, RNAdapter.register, RNAdapter.the_client, run,
      bind, call, ret, throw;
    rewrite Hurl, Hav; reflexivity.
Qed.

(** X9.  An [openAuth] answer that is neither a [cancel] nor a [success]
    carrying a non-empty URL (a [dismiss], an unknown type, a [success]
    whose URL is absent or empty) makes [login] reject with
    "Authentication flow failed", without calling the parser. *)
Theorem login_fails_on_other_answers (c : KeycloakInstance.t)
  (options : option KeycloakLoginOptions) (loginUrl : string)
  (res : BrowserResult.t) :
  KeycloakInstance.createLoginUrl c options = Resolved loginUrl ->
  InAppBrowser.isAvailable browser = Resolved true ->
  InAppBrowser.openAuth browser loginUrl (KeycloakInstance.redirectUri c)
    (RNKeycloakInitOptions.inAppBrowserOptions initOptions) = Resolved res ->
  BrowserResult.type res <> "cancel" ->
  BrowserResult.type res <> "success"
  \/ truthy (BrowserResult.url res) = false ->
  run (RNAdapter.login browser typeError (Some c) initOptions options)
  = (Rejected (ErrorObj "Authentication flow failed"),
     [CreateLoginUrl options; IsAvailable;
      OpenAuth loginUrl (KeycloakInstance.redirectUri c)
        (RNKeycloakInitOptions.inAppBrowserOptions initOptions)]).
Proof.
  intros Hurl Hav Hopen Hcancel Hother.
  rewrite (login_until_answer browser typeError initOptions c options
             loginUrl res Hurl Hav Hopen).
  apply String.eqb_neq in Hcancel. cbv zeta. rewrite Hcancel.
  destruct Hother as [Htype|Hfalsy].
  - apply String.eqb_neq in Htype. rewrite Htype. reflexivity.
  - rewrite (if_truthy_falsy _ _ _ Hfalsy).
    destruct (BrowserResult.type res =? "success"); reflexivity.
Qed.

(** X10.  Any [openAuth] answer other than a [success] carrying a non-empty
    URL makes [register] reject with "Registration flow failed", without
    calling the parser: [cancel], [dismiss] and a [success] without URL
    alike. *)
Theorem register_fails_without_callback_url (c : KeycloakInstance.t)
  (options : option KeycloakRegisterOptions) (registerUrl : string)
  (res : BrowserResult.t) :
  KeycloakInstance.createRegisterUrl c options = Resolved registerUrl ->
  InAppBrowser.isAvailable browser = Resolved true ->
  InAppBrowser.openAuth browser registerUrl (KeycloakInstance.redirectUri c)
    (RNKeycloakInitOptions.inAppBrowserOptions initOptions) = Resolved res ->
  BrowserResult.type res <> "success"
  \/ truthy (BrowserResult.url res) = false ->
  run (RNAdapter.register browser typeError (Some c) initOptions options)
  = (Rejected (ErrorObj "Registration flow failed"),
     [CreateRegisterUrl options; IsAvailable;
      OpenAuth registerUrl (KeycloakInstance.redirectUri c)
        (RNKeycloakInitOptions.inAppBrowserOptions initOptions)]).
Proof.
  intros Hurl Hav Hopen Hother.
  rewrite (register_until_answer browser typeError initOptions c options
             registerUrl res Hurl Hav Hopen).
  cbv zeta. destruct Hother as [Htype|Hfalsy].
  - apply String.eqb_neq in Htype. rewrite Htype. reflexivity.
  - rewrite (if_truthy_falsy _ _ _ Hfalsy).
    destruct (BrowserResult.type res =? "success"); reflexivity.
Qed.

(** X11.  Outside [logout] nothing is caught: a failure of the URL builder,
    of the availability query or of [openAuth] is the rejection of [login]
    and [register] as it is, with nothing called after the failing step;
    likewise a throwing account-URL builder for [accountManagement]. *)
Theorem flows_propagate_failures (c : KeycloakInstance.t) (inner : thrown) :
  let redirect := KeycloakInstance.redirectUri c in
  let opts := RNKeycloakInitOptions.inAppBrowserOptions initOptions in
  (forall options,
     KeycloakInstance.createLoginUrl c options = Rejected inner ->
     run (RNAdapter.login browser typeError (Some c) initOptions options)
     = (Rejected inner, [CreateLoginUrl options]))
  /\ (forall options loginUrl,
        KeycloakInstance.createLoginUrl c options = Resolved loginUrl ->
        InAppBrowser.isAvailable browser = Rejected inner ->
        run (RNAdapter.login browser typeError (Some c) initOptions options)
        = (Rejected inner, [CreateLoginUrl options; IsAvailable]))
  /\ (forall options loginUrl,
        KeycloakInstance.createLoginUrl c options = Resolved loginUrl ->
        InAppBrowser.isAvailable browser = Resolved true ->
        InAppBrowser.openAuth browser loginUrl redirect opts
        = Rejected inner ->
        run (RNAdapter.login browser typeError (Some c) initOptions options)
        = (Rejected inner,
           [CreateLoginUrl options; IsAvailable;
            OpenAuth loginUrl redirect opts]))
  /\ (forall options,
        KeycloakInstance.createRegisterUrl c options = Rejected inner ->
        run (RNAdapter.register browser typeError (Some c) initOptions options)
        = (Rejected inner, [CreateRegisterUrl options]))
  /\ (forall options registerUrl,
        KeycloakInstance.createRegisterUrl c options = Resolved registerUrl ->
        InAppBrowser.isAvailable browser = Rejected inner ->
        run (RNAdapter.register browser typeError (Some c) initOptions options)
        = (Rejected inner, [CreateRegisterUrl options; IsAvailable]))
  /\ (forall options registerUrl,
        KeycloakInstance.createRegisterUrl c options = Resolved registerUrl ->
        InAppBrowser.isAvailable browser = Resolved true ->
        InAppBrowser.openAuth browser registerUrl redirect opts
        = Rejected inner ->
        run (RNAdapter.register browser typeError (Some c) initOptions options)
        = (Rejected inner,
           [CreateRegisterUrl options; IsAvailable;
            OpenAuth registerUrl redirect opts]))
  /\ (KeycloakInstance.createAccountUrl c = Rejected inner ->
      run (RNAdapter.accountManagement browser typeError (Some c) initOptions)
      = (Rejected inner, [CreateAccountUrl])).
Proof.
  intros redirect opts.
  unfold RNAdapter.login, RNAdapter.register, RNAdapter.accountManagement,
    RNAdapter.the_client, run, bind, call, ret, throw.
  repeat split.
  - intros options Hurl. rewrite Hurl. reflexivity.
  - intros options url Hurl Hav. rewrite Hurl, Hav. reflexivity.
  - intros options url Hurl Hav Hopen. rewrite Hurl, Hav. cbv zeta.
    fold redirect opts. cbn [app]. rewrite Hopen. reflexivity.
  - intros options Hurl. rewrite Hurl. reflexivity.
  - intros options url Hurl Hav. rewrite Hurl, Hav. reflexivity.
  - intros options url Hurl Hav Hopen. rewrite Hurl, Hav. cbv zeta.
    fold redirect opts. cbn [app]. rewrite Hopen. reflexivity.
  - intros Hurl. rewrite Hurl. reflexivity.
Qed.

(** X12.  Whatever the collaborators answer and whether or not a client is
    present, [login], [register] and [accountManagement] never call
    [clearToken] and never hand a URL to the URL opener. *)
Theorem only_logout_clears_tokens (client : option KeycloakInstance.t)
  (loginOptions : option KeycloakLoginOptions)
  (registerOptions : option KeycloakRegisterOptions) :
  let entered :=
    calls (RNAdapter.login browser typeError client initOptions loginOptions) in
  let registered :=
    calls (RNAdapter.register browser typeError client initOptions
             registerOptions) in
  let managed :=
    calls (RNAdapter.accountManagement browser typeError client initOptions) in
  (cleared entered = false /\ forall url, ~ In (OpenURL url) entered)
  /\ (cleared registered = false /\ forall url, ~ In (OpenURL url) registered)
  /\ (cleared managed = false /\ forall url, ~ In (OpenURL url) managed).
Proof.
  intros entered registered managed.
  subst entered registered managed.
  split; [|split];
    all_worlds; (split; [reflexivity | intros url; not_in_log]).
Qed.

(** X13.  Whatever the collaborators answer, [login] and [register] resolve
    only when the URL builder returned a URL, the in-app browser was
    available, [openAuth] on that URL answered with type [success] and a
    non-empty URL, the parser accepted that very URL and [processCallback]
    resolved on the parser's output; the resolved value is
    [processCallback]'s. *)
Theorem browser_flows_resolve_only_through_processCallback
  (client : option KeycloakInstance.t) (v : unit) :
  let opts := RNKeycloakInitOptions.inAppBrowserOptions initOptions in
  (forall options,
     outcome (RNAdapter.login browser typeError client initOptions options)
     = Resolved v ->
     exists c loginUrl res url oauth,
       client = Some c
       /\ calls (RNAdapter.login browser typeError client initOptions options)
          = [CreateLoginUrl options; IsAvailable;
             OpenAuth loginUrl (KeycloakInstance.redirectUri c) opts;
             ParseCallback url; ProcessCallback oauth]
       /\ KeycloakInstance.createLoginUrl c options = Resolved loginUrl
       /\ InAppBrowser.isAvailable browser = Resolved true
       /\ InAppBrowser.openAuth browser loginUrl
            (KeycloakInstance.redirectUri c) opts = Resolved res
       /\ BrowserResult.type res = "success"
       /\ BrowserResult.url res = Some url
       /\ url <> ""
       /\ KeycloakInstance.parseCallback c url = Resolved oauth
       /\ KeycloakInstance.processCallback c oauth = Resolved v)
  /\ (forall options,
        outcome (RNAdapter.register browser typeError client initOptions
                   options)
        = Resolved v ->
        exists c registerUrl res url oauth,
          client = Some c
          /\ calls (RNAdapter.register browser typeError client initOptions
                      options)
             = [CreateRegisterUrl options; IsAvailable;
                OpenAuth registerUrl (KeycloakInstance.redirectUri c) opts;
                ParseCallback url; ProcessCallback oauth]
          /\ KeycloakInstance.createRegisterUrl c options
             = Resolved registerUrl
          /\ InAppBrowser.isAvailable browser = Resolved true
          /\ InAppBrowser.openAuth browser registerUrl
               (KeycloakInstance.redirectUri c) opts = Resolved res
          /\ BrowserResult.type res = "success"
          /\ BrowserResult.url res = Some url
          /\ url <> ""
          /\ KeycloakInstance.parseCallback c url = Resolved oauth
          /\ KeycloakInstance.processCallback c oauth = Resolved v).
Proof.
  intros opts. subst opts.
  split; intros options;
    all_worlds; intros E; try discriminate E;
    eexists _, _, _, _, _;
    (split; [reflexivity|]); (split; [reflexivity|]);
    (split; [eassumption|]); (split; [first [eassumption | reflexivity]|]);
    (split; [eassumption|]);
    (split; [apply String.eqb_eq; eassumption|]);
    (split; [eassumption|]);
    (split; [apply String.eqb_neq; eassumption|]);
    (split; assumption).
Qed.

(** X14.  Whatever the collaborators answer, [login] and [register] open at
    most one browser session, and any session they open is on exactly the
    URL the client's builder returned, unmodified, with the client's
    configured redirect URI and the adapter's [inAppBrowserOptions]. *)
Theorem browser_flows_open_what_the_client_built (c : KeycloakInstance.t)
  (url : string) (redirect : option string)
  (opts : option InAppBrowserOptions) :
  (forall options,
     length (opened_urls
               (calls (RNAdapter.login browser typeError (Some c) initOptions
                         options))) <= 1
     /\ (In (OpenAuth url redirect opts)
            (calls (RNAdapter.login browser typeError (Some c) initOptions
                      options)) ->
         KeycloakInstance.createLoginUrl c options = Resolved url
         /\ redirect = KeycloakInstance.redirectUri c
         /\ opts = RNKeycloakInitOptions.inAppBrowserOptions initOptions))
  /\ (forall options,
        length (opened_urls
                  (calls (RNAdapter.register browser typeError (Some c)
                            initOptions options))) <= 1
        /\ (In (OpenAuth url redirect opts)
               (calls (RNAdapter.register browser typeError (Some c)
                         initOptions options)) ->
            KeycloakInstance.createRegisterUrl c options = Resolved url
            /\ redirect = KeycloakInstance.redirectUri c
            /\ opts = RNKeycloakInitOptions.inAppBrowserOptions initOptions)).
Proof.
  split; intros options;
    all_worlds; (split; [simpl; lia|]); cbn [In]; intros Hin;
    repeat match goal with
           | Hin : _ \/ _ |- _ =>
               destruct Hin as [E|Hin];
               [try discriminate E; injection E as <- <- <-;
                repeat split; reflexivity|]
           end;
    contradiction.
Qed.

End BrowserFlowEdges.

(** ** Token requests off the main path *)

Section TokenHelperEdges.
Context `{Payloads}.
Variable fetch : string -> RequestInit.t -> settled Response.t.

(** X15.  When [fetch] itself rejects (no response at all), [fetchTokens]
    and [refreshTokens] reject with that same reason, unrenamed, after the
    one request; the body is never read and no second request is made. *)
Theorem token_helpers_propagate_fetch_failure (tokenUrl params : string)
  (inner : thrown) :
  let request :=
    {| RequestInit.method := "POST";
       RequestInit.headers :=
         [("Content-type", "application/x-www-form-urlencoded")];
       RequestInit.body := params |} in
  fetch tokenUrl request = Rejected inner ->
  run (RNAdapter.fetchTokens fetch tokenUrl params)
  = (Rejected inner, [Fetch tokenUrl request])
  /\ run (RNAdapter.refreshTokens fetch tokenUrl params)
     = (Rejected inner, [Fetch tokenUrl request]).
Proof.
  intros request Hfetch.
  unfold run, RNAdapter.fetchTokens, RNAdapter.refreshTokens, bind, call,
    RNAdapter.tokenRequest.
  fold request. rewrite Hfetch. split; reflexivity.
Qed.

(** X16.  [fetchTokens] and [refreshTokens] make the same calls with the
    same arguments whatever [fetch] answers.  On an [ok] response and on a
    rejected [fetch] they settle alike; on a response that is not [ok] they
    reject with "fetchTokens failed" and "refreshTokens failed", their only
    difference. *)
Theorem token_helpers_differ_in_message_only (tokenUrl params : string) :
  let request :=
    {| RequestInit.method := "POST";
       RequestInit.headers :=
         [("Content-type", "application/x-www-form-urlencoded")];
       RequestInit.body := params |} in
  calls (RNAdapter.fetchTokens fetch tokenUrl params)
  = calls (RNAdapter.refreshTokens fetch tokenUrl params)
  /\ (forall tokenRes,
        fetch tokenUrl request = Resolved tokenRes ->
        Response.ok tokenRes = true ->
        run (RNAdapter.fetchTokens fetch tokenUrl params)
        = run (RNAdapter.refreshTokens fetch tokenUrl params))
  /\ (forall inner,
        fetch tokenUrl request = Rejected inner ->
        run (RNAdapter.fetchTokens fetch tokenUrl params)
        = run (RNAdapter.refreshTokens fetch tokenUrl params))
  /\ (forall tokenRes,
        fetch tokenUrl request = Resolved tokenRes ->
        Response.ok tokenRes = false ->
        outcome (RNAdapter.fetchTokens fetch tokenUrl params)
        = Rejected (ErrorObj "fetchTokens failed")
        /\ outcome (RNAdapter.refreshTokens fetch tokenUrl params)
           = Rejected (ErrorObj "refreshTokens failed")).
Proof.
  intros request.
  unfold calls, outcome, run, RNAdapter.fetchTokens, RNAdapter.refreshTokens,
    bind, call, throw, RNAdapter.tokenRequest.
  fold request.
  split; [|split; [|split]].
  - destruct (fetch tokenUrl request) as [res|e]; [|reflexivity].
    destruct (Response.ok res); reflexivity.
  - intros tokenRes -> ->. reflexivity.
  - intros inner ->. reflexivity.
  - intros tokenRes -> ->. split; reflexivity.
Qed.

End TokenHelperEdges.

(** ** Redirect URI resolved twice *)

Section RedirectUriEdges.
Context `{Payloads}.
Variable typeError : string.

(** X17.  What [redirectUri] returns can be passed back to it as
    [options.redirectUri] and comes out unchanged, whatever the client. *)
Theorem redirectUri_is_stable (client : option KeycloakInstance.t)
  (options : option KeycloakLogoutOptions.t) (uri : string) :
  RNAdapter.redirectUri typeError client options = Resolved uri ->
  RNAdapter.redirectUri typeError client
    (Some {| KeycloakLogoutOptions.redirectUri := Some uri |})
  = Resolved uri.
Proof.
  unfold RNAdapter.redirectUri, if_truthy.
  cbn [KeycloakLogoutOptions.redirectUri_of KeycloakLogoutOptions.redirectUri].
  intros Hfirst.
  destruct (String.eqb_spec uri "") as [->|Hne]; [|reflexivity].
  destruct (KeycloakLogoutOptions.redirectUri_of options) as [a|].
  - destruct (a =? "") eqn:Ea; [exact Hfirst|].
    injection Hfirst as E. rewrite E in Ea. discriminate Ea.
  - exact Hfirst.
Qed.

End RedirectUriEdges.

(** ** Worked scenarios *)

Import Demo.
#[local] Existing Instance Demo.payloads.

(** C1, the claim as stated fails.  A signed-in client, a logout URL, no
    in-app browser, and a URL opener that rejects: [clearToken] is never
    called and [logout] rejects with the opener's failure, whereas with an
    opener that resolves it resolves.  The opener's outcome is observed. *)
Lemma logout_fallback_observes_opener :
  KeycloakInstance.idToken signedIn = Some "tok"
  /\ KeycloakInstance.createLogoutUrl signedIn None
     = Resolved (Some logoutUrl)
  /\ InAppBrowser.isAvailable noBrowser = Resolved false
  /\ calls (RNAdapter.logout noBrowser
              (linking (Rejected (ErrorObj "No handler for URL")))
              (Some signedIn) None)
     = [CreateLogoutUrl None; IsAvailable;
        OpenURL "https://kc/logout?post_logout_redirect_uri=app%3A%2F%2Fcb&id_token_hint=tok"]
  /\ cleared (calls (RNAdapter.logout noBrowser
                       (linking (Rejected (ErrorObj "No handler for URL")))
                       (Some signedIn) None))
     = false
  /\ outcome (RNAdapter.logout noBrowser
                (linking (Rejected (ErrorObj "No handler for URL")))
                (Some signedIn) None)
     = Rejected (ErrorObj "Logout process failed: No handler for URL")
  /\ outcome (RNAdapter.logout noBrowser (linking (Resolved tt))
                (Some signedIn) None)
     = Resolved tt.
Proof. repeat split. Qed.

Lemma logout_fallback_awaits_opener_witness :
  InAppBrowser.isAvailable noBrowser = Resolved false
  /\ run (RNAdapter.logout noBrowser (linking (Resolved tt))
            (Some signedIn) None)
     = (Resolved tt,
        [CreateLogoutUrl None; IsAvailable;
         OpenURL "https://kc/logout?post_logout_redirect_uri=app%3A%2F%2Fcb&id_token_hint=tok";
         ClearToken]).
Proof.
  split; [reflexivity|].
  exact (proj1 (logout_fallback_awaits_opener noBrowser (linking (Resolved tt))
                  signedIn None "tok" logoutUrl eq_refl ltac:(discriminate) eq_refl
                  ltac:(discriminate) eq_refl) tt eq_refl).
Defined.

Lemma logout_renames_leading_redirect_parameter_witness :
  KeycloakInstance.idToken signedIn = Some "tok"
  /\ KeycloakInstance.createLogoutUrl signedIn None
     = Resolved (Some ("https://kc/logout" ++ "?" ++ "redirect_uri="
                       ++ "app%3A%2F%2Fcb"))
  /\ opened_urls
       (calls (RNAdapter.logout (browser true (answered "success" None))
                 (linking (Resolved tt)) (Some signedIn) None))
     = ["https://kc/logout?post_logout_redirect_uri=app%3A%2F%2Fcb&id_token_hint=tok"].
Proof.
  split; [reflexivity|]. split; [reflexivity|].
  refine (proj2 (logout_renames_leading_redirect_parameter
                   (browser true (answered "success" None))
                   (linking (Resolved tt)) signedIn None "tok"
                   "https://kc/logout" "?" "app%3A%2F%2Fcb"
                   eq_refl ltac:(discriminate) eq_refl (or_introl eq_refl) _)
            true eq_refl).
  intros k Hk.
  do 18 (destruct k as [|k]; [reflexivity|]).
  simpl in Hk. lia.
Defined.

(** C2, the claim as stated fails.  The client builds a logout URL whose
    redirect parameter [redirect_uri=b] comes after a parameter named
    [client_redirect_uri].  The URL handed over keeps [redirect_uri=b]
    under its login-style name (the earlier parameter's name is what was
    rewritten), so it is not the built URL with its redirect parameter
    renamed and the hint appended. *)
Lemma logout_keeps_later_redirect_parameter :
  KeycloakInstance.idToken twice = Some "tok"
  /\ KeycloakInstance.createLogoutUrl twice None
     = Resolved
         (Some "https://kc/logout?client_redirect_uri=a&redirect_uri=b")
  /\ opened_urls
       (calls (RNAdapter.logout (browser true (answered "success" None))
                 (linking (Resolved tt)) (Some twice) None))
     = ["https://kc/logout?client_post_logout_redirect_uri=a"
        ++ "&redirect_uri=b" ++ "&id_token_hint=tok"]
  /\ opened_urls
       (calls (RNAdapter.logout noBrowser (linking (Resolved tt))
                 (Some twice) None))
     = ["https://kc/logout?client_post_logout_redirect_uri=a"
        ++ "&redirect_uri=b" ++ "&id_token_hint=tok"]
  /\ "https://kc/logout?client_post_logout_redirect_uri=a"
     ++ "&redirect_uri=b" ++ "&id_token_hint=tok"
     <> "https://kc/logout?client_redirect_uri=a"
        ++ "&post_logout_redirect_uri=b" ++ "&id_token_hint=tok".
Proof. repeat split. discriminate. Qed.

Lemma logout_without_token_calls_nobody_witness :
  KeycloakInstance.idToken signedOut = Some ""
  /\ run (RNAdapter.logout (browser true (answered "success" None))
            (linking (Resolved tt)) (Some signedOut) None)
     = (Rejected (ErrorObj
          "Logout process failed: Keycloak instance or ID token is missing."),
        []).
Proof.
  split; [reflexivity|].
  apply logout_without_token_calls_nobody.
  right. exists signedOut. split; [reflexivity | right; reflexivity].
Defined.

Lemma logout_failures_rewrapped_witness :
  run (RNAdapter.logout_try (browser true (answered "dismiss" None))
         (linking (Resolved tt)) (Some signedIn) None)
  = (Rejected (ErrorObj "User has closed the browser"),
     [CreateLogoutUrl None; IsAvailable;
      OpenAuth "https://kc/logout?post_logout_redirect_uri=app%3A%2F%2Fcb&id_token_hint=tok"
        (Some "app://cb") None])
  /\ run (RNAdapter.logout (browser true (answered "dismiss" None))
            (linking (Resolved tt)) (Some signedIn) None)
     = (Rejected (ErrorObj
          "Logout process failed: User has closed the browser"),
        [CreateLogoutUrl None; IsAvailable;
         OpenAuth "https://kc/logout?post_logout_redirect_uri=app%3A%2F%2Fcb&id_token_hint=tok"
           (Some "app://cb") None]).
Proof.
  split; [reflexivity|].
  exact (proj1 (logout_failures_rewrapped
                  (browser true (answered "dismiss" None))
                  (linking (Resolved tt)) (Some signedIn) None)
           "User has closed the browser" _ eq_refl).
Defined.

Lemma logout_rewrites_leftmost_match_only_witness :
  KeycloakInstance.createLogoutUrl twice None
  = Resolved (Some ("https://kc/logout?client_" ++ "redirect_uri"
                    ++ "=a&redirect_uri=b"))
  /\ opened_urls
       (calls (RNAdapter.logout noBrowser (linking (Resolved tt))
                 (Some twice) None))
     = ["https://kc/logout?client_post_logout_redirect_uri=a&redirect_uri=b&id_token_hint=tok"].
Proof.
  split; [reflexivity|].
  apply (proj1 (logout_rewrites_leftmost_match_only noBrowser
                  (linking (Resolved tt)) twice None "tok"
                  "https://kc/logout?client_redirect_uri=a&redirect_uri=b"
                  false eq_refl ltac:(discriminate) eq_refl
                  ltac:(discriminate) eq_refl)
           "https://kc/logout?client_" "=a&redirect_uri=b").
  - reflexivity.
  - intros k Hk.
    do 25 (destruct k as [|k]; [reflexivity|]).
    simpl in Hk. lia.
Defined.

Lemma success_routes_callback_witness :
  BrowserResult.url
    {| BrowserResult.type := "success";
       BrowserResult.url := Some "app://cb?code=abc" |}
  = Some "app://cb?code=abc"
  /\ run (RNAdapter.login
            (browser true (answered "success" (Some "app://cb?code=abc")))
            "undefined is not an object" (Some signedIn) initOptions None)
     = (Resolved tt,
        [CreateLoginUrl None; IsAvailable;
         OpenAuth "https://kc/auth?client_id=app&redirect_uri=app%3A%2F%2Fcb"
           (Some "app://cb") (Some "modal");
         ParseCallback "app://cb?code=abc";
         ProcessCallback "parsed:app://cb?code=abc"]).
Proof.
  split; [reflexivity|].
  refine (proj1 (success_routes_callback
                   (browser true (answered "success" (Some "app://cb?code=abc")))
                   "undefined is not an object" initOptions signedIn
                   {| BrowserResult.type := "success";
                      BrowserResult.url := Some "app://cb?code=abc" |}
                   "app://cb?code=abc" eq_refl eq_refl eq_refl _)
            None _ eq_refl eq_refl).
  discriminate.
Defined.

Lemma cancel_is_told_apart_by_login_only_witness :
  outcome (RNAdapter.login (browser true (answered "cancel" None))
             "undefined is not an object" (Some signedIn) initOptions None)
  = Rejected (ErrorObj "User has closed the browser")
  /\ outcome (RNAdapter.register (browser true (answered "cancel" None))
                "undefined is not an object" (Some signedIn) initOptions None)
     = Rejected (ErrorObj "Registration flow failed").
Proof.
  pose proof (cancel_is_told_apart_by_login_only
                (browser true (answered "cancel" None))
                "undefined is not an object" initOptions signedIn
                {| BrowserResult.type := "cancel"; BrowserResult.url := None |}
                eq_refl eq_refl) as [Hlogin Hregister].
  split.
  - exact (f_equal fst (Hlogin None _ eq_refl eq_refl)).
  - exact (f_equal fst (Hregister None _ eq_refl eq_refl)).
Defined.

Lemma accountManagement_opens_or_rejects_witness :
  KeycloakInstance.createAccountUrl signedIn = Resolved None
  /\ run (RNAdapter.accountManagement (browser true (answered "success" None))
            "undefined is not an object" (Some signedIn) initOptions)
     = (Rejected (NonError "Not supported by the OIDC server"),
        [CreateAccountUrl]).
Proof.
  split; [reflexivity|].
  exact (proj1 (accountManagement_opens_or_rejects
                  (browser true (answered "success" None))
                  "undefined is not an object" initOptions signedIn)
           eq_refl).
Defined.

Lemma token_helpers_single_post_witness :
  run (RNAdapter.fetchTokens
         (fetch (Resolved {| Response.ok := false;
                             Response.json := Resolved "{}" |}))
         "https://kc/token" "grant_type=authorization_code&code=abc")
  = (Rejected (ErrorObj "fetchTokens failed"),
     [Fetch "https://kc/token"
        {| RequestInit.method := "POST";
           RequestInit.headers :=
             [("Content-type", "application/x-www-form-urlencoded")];
           RequestInit.body := "grant_type=authorization_code&code=abc" |}])
  /\ outcome (RNAdapter.refreshTokens
                (fetch (Resolved {| Response.ok := true;
                                    Response.json := Resolved "{}" |}))
                "https://kc/token" "grant_type=refresh_token")
     = Resolved "{}".
Proof.
  split.
  - exact (proj1 (proj1 (token_helpers_single_post
                           (fetch (Resolved {| Response.ok := false;
                                               Response.json := Resolved "{}" |}))
                           "https://kc/token"
                           "grant_type=authorization_code&code=abc" _ eq_refl)
                    eq_refl)).
  - exact (proj2 (proj2 (proj2 (token_helpers_single_post
                                  (fetch (Resolved {| Response.ok := true;
                                                      Response.json := Resolved "{}" |}))
                                  "https://kc/token"
                                  "grant_type=refresh_token" _ eq_refl))
                    "{}" eq_refl eq_refl)).
Defined.

Lemma redirectUri_resolution_witness :
  RNAdapter.redirectUri "undefined is not an object" (Some signedIn)
    (Some {| KeycloakLogoutOptions.redirectUri := Some "app://other" |})
  = Resolved "app://other"
  /\ RNAdapter.redirectUri "undefined is not an object" (Some signedIn)
       (Some {| KeycloakLogoutOptions.redirectUri := None |})
     = Resolved "app://cb".
Proof.
  pose proof (redirectUri_resolution "undefined is not an object"
                (Some signedIn)) as [Hsupplied [Hconfigured _]].
  split.
  - apply Hsupplied; [reflexivity | discriminate].
  - apply (Hconfigured signedIn); [reflexivity | reflexivity | reflexivity
                                   | discriminate].
Defined.

(** The rewrite on the shapes of URL a client builds. *)
Example rewrite_plain :
  replace "redirect_uri" "post_logout_redirect_uri"
    "https://kc/logout?redirect_uri=app%3A%2F%2Fcb"
  = "https://kc/logout?post_logout_redirect_uri=app%3A%2F%2Fcb".
Proof. reflexivity. Qed.

Example rewrite_match_inside_value :
  replace "redirect_uri" "post_logout_redirect_uri"
    "https://kc/logout?redirect_uri=app%3A%2F%2Fcb%3Fredirect_uri%3Dx"
  = "https://kc/logout?post_logout_redirect_uri=app%3A%2F%2Fcb%3Fredirect_uri%3Dx".
Proof. reflexivity. Qed.

Example rewrite_match_in_other_name :
  replace "redirect_uri" "post_logout_redirect_uri"
    "https://kc/logout?client_redirect_uri=a&redirect_uri=b"
  = "https://kc/logout?client_post_logout_redirect_uri=a&redirect_uri=b".
Proof. reflexivity. Qed.

Example rewrite_without_match :
  replace "redirect_uri" "post_logout_redirect_uri" "https://kc/logout"
  = "https://kc/logout".
Proof. reflexivity. Qed.

(** An empty option, or an empty configured URI, counts as not given. *)
Example redirectUri_empty_option :
  RNAdapter.redirectUri "undefined is not an object" (Some signedIn)
    (Some {| KeycloakLogoutOptions.redirectUri := Some "" |})
  = Resolved "app://cb".
Proof. reflexivity. Qed.

(** A [success] answer without a URL is a failed flow for [login]. *)
Example login_success_without_url :
  run (RNAdapter.login (browser true (answered "success" None))
         "undefined is not an object" (Some signedIn) initOptions None)
  = (Rejected (ErrorObj "Authentication flow failed"),
     [CreateLoginUrl None; IsAvailable;
      OpenAuth "https://kc/auth?client_id=app&redirect_uri=app%3A%2F%2Fcb"
        (Some "app://cb") (Some "modal")]).
Proof. reflexivity. Qed.

(** ** Worked scenarios off the main paths *)

Lemma logout_resolves_only_after_clearToken_witness :
  outcome (RNAdapter.logout noBrowser (linking (Resolved tt))
             (Some signedIn) None)
  = Resolved tt
  /\ exists c before,
       Some signedIn = Some c
       /\ KeycloakInstance.clearToken c = Resolved tt
       /\ calls (RNAdapter.logout noBrowser (linking (Resolved tt))
                   (Some signedIn) None)
          = (before ++ [ClearToken])%list
       /\ cleared before = false
       /\ length (opened_urls before) = 1.
Proof.
  split; [reflexivity|].
  apply (logout_resolves_only_after_clearToken noBrowser
           (linking (Resolved tt)) (Some signedIn) None tt).
  reflexivity.
Defined.

Lemma logout_opens_and_clears_at_most_once_witness :
  cleared (calls (RNAdapter.logout (browser true (answered "success" None))
                    (linking (Resolved tt)) (Some signedIn) None))
  = true
  /\ exists before,
       calls (RNAdapter.logout (browser true (answered "success" None))
                (linking (Resolved tt)) (Some signedIn) None)
       = (before ++ [ClearToken])%list
       /\ cleared before = false
       /\ length (opened_urls before) = 1.
Proof.
  split; [reflexivity|].
  apply (proj2 (logout_opens_and_clears_at_most_once
                  (browser true (answered "success" None))
                  (linking (Resolved tt)) (Some signedIn) None)).
  reflexivity.
Defined.

Lemma logout_browser_success_witness :
  BrowserResult.url
    {| BrowserResult.type := "success"; BrowserResult.url := None |} = None
  /\ run (RNAdapter.logout (browser true (answered "success" None))
            (linking (Resolved tt)) (Some signedIn)
            (Some {| KeycloakLogoutOptions.redirectUri := Some "app://bye" |}))
     = (Resolved tt,
        [CreateLogoutUrl
           (Some {| KeycloakLogoutOptions.redirectUri := Some "app://bye" |});
         IsAvailable;
         OpenAuth "https://kc/logout?post_logout_redirect_uri=app%3A%2F%2Fcb&id_token_hint=tok"
           (Some "app://bye") None;
         ClearToken]).
Proof.
  split; [reflexivity|].
  exact (logout_browser_success (browser true (answered "success" None))
           (linking (Resolved tt)) signedIn
           (Some {| KeycloakLogoutOptions.redirectUri := Some "app://bye" |})
           "tok" logoutUrl
           {| BrowserResult.type := "success"; BrowserResult.url := None |}
           eq_refl ltac:(discriminate) eq_refl ltac:(discriminate) eq_refl
           eq_refl eq_refl).
Defined.

Lemma logout_browser_refusal_witness :
  run (RNAdapter.logout (browser true (answered "timeout" None))
         (linking (Resolved tt)) (Some signedIn) None)
  = (Rejected (ErrorObj
       "Logout process failed: Logout process failed in InAppBrowser."),
     [CreateLogoutUrl None; IsAvailable;
      OpenAuth "https://kc/logout?post_logout_redirect_uri=app%3A%2F%2Fcb&id_token_hint=tok"
        (Some "app://cb") None]).
Proof.
  apply (proj2 (logout_browser_refusal (browser true (answered "timeout" None))
                  (linking (Resolved tt)) signedIn None "tok" logoutUrl
                  {| BrowserResult.type := "timeout";
                     BrowserResult.url := None |}
                  eq_refl ltac:(discriminate) eq_refl ltac:(discriminate)
                  eq_refl eq_refl)); discriminate.
Defined.

Lemma logout_stops_at_first_failure_witness :
  KeycloakInstance.createLogoutUrl
    (client (Some "tok") None None (Some "app://cb")) None
  = Resolved None
  /\ run (RNAdapter.logout (browser true (answered "success" None))
            (linking (Resolved tt))
            (Some (client (Some "tok") None None (Some "app://cb"))) None)
     = (Rejected (ErrorObj
          "Logout process failed: Unable to create logout URL."),
        [CreateLogoutUrl None]).
Proof.
  split; [reflexivity|].
  exact (proj1 (proj2 (logout_stops_at_first_failure
                         (browser true (answered "success" None))
                         (linking (Resolved tt))
                         (client (Some "tok") None None (Some "app://cb"))
                         None "tok" eq_refl ltac:(discriminate)))
           None eq_refl eq_refl).
Defined.

Lemma logout_without_match_appends_hint_only_witness :
  opened_urls
    (calls (RNAdapter.logout noBrowser (linking (Resolved tt))
              (Some (client (Some "tok") (Some "https://kc/logout") None None))
              None))
  = ["https://kc/logout&id_token_hint=tok"].
Proof.
  apply (logout_without_match_appends_hint_only noBrowser
           (linking (Resolved tt))
           (client (Some "tok") (Some "https://kc/logout") None None)
           None "tok" "https://kc/logout" false
           eq_refl ltac:(discriminate) eq_refl ltac:(discriminate) eq_refl).
  intros k Hk.
  do 18 (destruct k as [|k]; [reflexivity|]).
  simpl in Hk. lia.
Defined.

Lemma logout_redirect_agrees_with_redirectUri_witness :
  In (OpenAuth
        "https://kc/logout?post_logout_redirect_uri=app%3A%2F%2Fcb&id_token_hint=tok"
        (Some "app://cb") None)
     (calls (RNAdapter.logout (browser true (answered "success" None))
               (linking (Resolved tt)) (Some signedIn) None))
  /\ RNAdapter.redirectUri "undefined is not an object" (Some signedIn) None
     = Resolved "app://cb".
Proof.
  assert (Hin :
    In (OpenAuth
          "https://kc/logout?post_logout_redirect_uri=app%3A%2F%2Fcb&id_token_hint=tok"
          (Some "app://cb") None)
       (calls (RNAdapter.logout (browser true (answered "success" None))
                 (linking (Resolved tt)) (Some signedIn) None)))
    by (right; right; left; reflexivity).
  split; [exact Hin|].
  exact (proj2 (logout_redirect_agrees_with_redirectUri
                  (browser true (answered "success" None))
                  (linking (Resolved tt)) "undefined is not an object"
                  signedIn None _ _ _ Hin)).
Defined.

Lemma flows_need_the_in_app_browser_witness :
  InAppBrowser.isAvailable noBrowser = Resolved false
  /\ run (RNAdapter.login noBrowser "undefined is not an object"
            (Some signedIn) initOptions None)
     = (Rejected (ErrorObj "InAppBrowser not available"),
        [CreateLoginUrl None; IsAvailable]).
Proof.
  split; [reflexivity|].
  exact (proj1 (flows_need_the_in_app_browser noBrowser
                  "undefined is not an object" initOptions signedIn eq_refl)
           None _ eq_refl).
Defined.

Lemma login_fails_on_other_answers_witness :
  run (RNAdapter.login (browser true (answered "dismiss" None))
         "undefined is not an object" (Some signedIn) initOptions None)
  = (Rejected (ErrorObj "Authentication flow failed"),
     [CreateLoginUrl None; IsAvailable;
      OpenAuth "https://kc/auth?client_id=app&redirect_uri=app%3A%2F%2Fcb"
        (Some "app://cb") (Some "modal")]).
Proof.
  apply (login_fails_on_other_answers (browser true (answered "dismiss" None))
           "undefined is not an object" initOptions signedIn None _
           {| BrowserResult.type := "dismiss"; BrowserResult.url := None |}
           eq_refl eq_refl eq_refl).
  - discriminate.
  - left. discriminate.
Defined.

Lemma register_fails_without_callback_url_witness :
  run (RNAdapter.register (browser true (answered "success" (Some "")))
         "undefined is not an object" (Some signedIn) initOptions None)
  = (Rejected (ErrorObj "Registration flow failed"),
     [CreateRegisterUrl None; IsAvailable;
      OpenAuth "https://kc/registrations?redirect_uri=app%3A%2F%2Fcb"
        (Some "app://cb") (Some "modal")]).
Proof.
  apply (register_fails_without_callback_url
           (browser true (answered "success" (Some "")))
           "undefined is not an object" initOptions signedIn None _
           {| BrowserResult.type := "success"; BrowserResult.url := Some "" |}
           eq_refl eq_refl eq_refl).
  right. reflexivity.
Defined.

Lemma flows_propagate_failures_witness :
  run (RNAdapter.login
         (browser true (Rejected (ErrorObj "Another session is open")))
         "undefined is not an object" (Some signedIn) initOptions None)
  = (Rejected (ErrorObj "Another session is open"),
     [CreateLoginUrl None; IsAvailable;
      OpenAuth "https://kc/auth?client_id=app&redirect_uri=app%3A%2F%2Fcb"
        (Some "app://cb") (Some "modal")]).
Proof.
  exact (proj1 (proj2 (proj2 (flows_propagate_failures
                                (browser true
                                   (Rejected (ErrorObj "Another session is open")))
                                "undefined is not an object" initOptions
                                signedIn (ErrorObj "Another session is open"))))
           None _ eq_refl eq_refl eq_refl).
Defined.

Lemma only_logout_clears_tokens_witness :
  cleared
    (calls (RNAdapter.login
              (browser true (answered "success" (Some "app://cb?code=abc")))
              "undefined is not an object" (Some signedIn) initOptions None))
  = false
  /\ ~ In (OpenURL "https://kc/auth?client_id=app&redirect_uri=app%3A%2F%2Fcb")
          (calls (RNAdapter.login
                    (browser true
                       (answered "success" (Some "app://cb?code=abc")))
                    "undefined is not an object" (Some signedIn) initOptions
                    None)).
Proof.
  destruct (only_logout_clears_tokens
              (browser true (answered "success" (Some "app://cb?code=abc")))
              "undefined is not an object" initOptions (Some signedIn)
              None None) as [[Hclear Hopener] _].
  split; [exact Hclear | apply Hopener].
Defined.

Lemma browser_flows_resolve_only_through_processCallback_witness :
  outcome (RNAdapter.login
             (browser true (answered "success" (Some "app://cb?code=abc")))
             "undefined is not an object" (Some signedIn) initOptions None)
  = Resolved tt
  /\ exists c loginUrl res url oauth,
       Some signedIn = Some c
       /\ calls (RNAdapter.login
                   (browser true
                      (answered "success" (Some "app://cb?code=abc")))
                   "undefined is not an object" (Some signedIn) initOptions
                   None)
          = [CreateLoginUrl None; IsAvailable;
             OpenAuth loginUrl (KeycloakInstance.redirectUri c)
               (RNKeycloakInitOptions.inAppBrowserOptions initOptions);
             ParseCallback url; ProcessCallback oauth]
       /\ KeycloakInstance.createLoginUrl c None = Resolved loginUrl
       /\ InAppBrowser.isAvailable
            (browser true (answered "success" (Some "app://cb?code=abc")))
          = Resolved true
       /\ InAppBrowser.openAuth
            (browser true (answered "success" (Some "app://cb?code=abc")))
            loginUrl (KeycloakInstance.redirectUri c)
            (RNKeycloakInitOptions.inAppBrowserOptions initOptions)
          = Resolved res
       /\ BrowserResult.type res = "success"
       /\ BrowserResult.url res = Some url
       /\ url <> ""
       /\ KeycloakInstance.parseCallback c url = Resolved oauth
       /\ KeycloakInstance.processCallback c oauth = Resolved tt.
Proof.
  split; [reflexivity|].
  apply (proj1 (browser_flows_resolve_only_through_processCallback
                  (browser true
                     (answered "success" (Some "app://cb?code=abc")))
                  "undefined is not an object" initOptions (Some signedIn)
                  tt)).
  reflexivity.
Defined.

Lemma browser_flows_open_what_the_client_built_witness :
  In (OpenAuth "https://kc/registrations?redirect_uri=app%3A%2F%2Fcb"
        (Some "app://cb") (Some "modal"))
     (calls (RNAdapter.register (browser true (answered "cancel" None))
               "undefined is not an object" (Some signedIn) initOptions None))
  /\ KeycloakInstance.createRegisterUrl signedIn None
     = Resolved "https://kc/registrations?redirect_uri=app%3A%2F%2Fcb".
Proof.
  assert (Hin :
    In (OpenAuth "https://kc/registrations?redirect_uri=app%3A%2F%2Fcb"
          (Some "app://cb") (Some "modal"))
       (calls (RNAdapter.register (browser true (answered "cancel" None))
                 "undefined is not an object" (Some signedIn) initOptions
                 None)))
    by (right; right; left; reflexivity).
  split; [exact Hin|].
  exact (proj1 (proj2 (proj2 (browser_flows_open_what_the_client_built
                                (browser true (answered "cancel" None))
                                "undefined is not an object" initOptions
                                signedIn _ _ _) None) Hin)).
Defined.

Lemma token_helpers_propagate_fetch_failure_witness :
  run (RNAdapter.fetchTokens
         (fetch (Rejected (ErrorObj "Network request failed")))
         "https://kc/token" "grant_type=authorization_code&code=abc")
  = (Rejected (ErrorObj "Network request failed"),
     [Fetch "https://kc/token"
        {| RequestInit.method := "POST";
           RequestInit.headers :=
             [("Content-type", "application/x-www-form-urlencoded")];
           RequestInit.body := "grant_type=authorization_code&code=abc" |}]).
Proof.
  exact (proj1 (token_helpers_propagate_fetch_failure
                  (fetch (Rejected (ErrorObj "Network request failed")))
                  "https://kc/token" "grant_type=authorization_code&code=abc"
                  (ErrorObj "Network request failed") eq_refl)).
Defined.

Lemma token_helpers_differ_in_message_only_witness :
  run (RNAdapter.fetchTokens
         (fetch (Resolved {| Response.ok := true;
                             Response.json := Resolved "{}" |}))
         "https://kc/token" "grant_type=refresh_token")
  = run (RNAdapter.refreshTokens
           (fetch (Resolved {| Response.ok := true;
                               Response.json := Resolved "{}" |}))
           "https://kc/token" "grant_type=refresh_token")
  /\ outcome (RNAdapter.fetchTokens
                (fetch (Resolved {| Response.ok := false;
                                    Response.json := Resolved "{}" |}))
                "https://kc/token" "grant_type=refresh_token")
     = Rejected (ErrorObj "fetchTokens failed")
  /\ outcome (RNAdapter.refreshTokens
                (fetch (Resolved {| Response.ok := false;
                                    Response.json := Resolved "{}" |}))
                "https://kc/token" "grant_type=refresh_token")
     = Rejected (ErrorObj "refreshTokens failed").
Proof.
  split.
  - exact (proj1 (proj2 (token_helpers_differ_in_message_only
                           (fetch (Resolved {| Response.ok := true;
                                               Response.json := Resolved "{}" |}))
                           "https://kc/token" "grant_type=refresh_token"))
             _ eq_refl eq_refl).
  - exact (proj2 (proj2 (proj2 (token_helpers_differ_in_message_only
                                  (fetch (Resolved {| Response.ok := false;
                                                      Response.json := Resolved "{}" |}))
                                  "https://kc/token"
                                  "grant_type=refresh_token")))
             _ eq_refl eq_refl).
Defined.

Lemma redirectUri_is_stable_witness :
  RNAdapter.redirectUri "undefined is not an object" (Some signedIn) None
  = Resolved "app://cb"
  /\ RNAdapter.redirectUri "undefined is not an object" (Some signedIn)
       (Some {| KeycloakLogoutOptions.redirectUri := Some "app://cb" |})
     = Resolved "app://cb".
Proof.
  split; [reflexivity|].
  exact (redirectUri_is_stable "undefined is not an object" (Some signedIn)
           None "app://cb" eq_refl).
Defined.
